(** * Lens proxy: request dispatch, target resolution and retry bookkeeping

    A shallow embedding of [src/main/lens-proxy.ts] (class [LensProxy]).
    The event-driven code is written in a small state monad over the
    proxy's fields, the store of live request and response objects, the
    pending [setTimeout] callbacks and a trace of the calls made on the
    ledger and on the collaborators.

    Conventions of the model:
    - request and response objects live in a store and are named by
      reference, so that a callback which captured [req] sees what
      [getProxyTarget] did to it;
    - the cluster manager, the context handler, the router and the
      transport are outside the module: their answers are parameters
      ([Collaborators], [KUBE_BASE]) and the calls made on them are
      recorded in the trace;
    - a response object is its [statusCode] and the list of the calls made
      on it, by the proxy or by the transport; its head counts as sent
      once a call was made, and in the error hook [writeHead] on a sent
      head throws, as Node does;
    - an awaited call either resolves or rejects, and a handler runs to
      its end in one turn: turns interleaved at an [await] are not
      modelled;
    - calls on the logger are left out. *)

From Stdlib Require Import ZArith String Ascii List Bool Lia.
From stdpp Require Import base gmap strings list functions.

Open Scope string_scope.
Open Scope list_scope.
Open Scope Z_scope.

(** ** JavaScript string operations used by the proxy *)

Module JS.

(** [s.startsWith(p)] *)
Definition startsWith (s p : string) : bool := String.prefix p s.

(** The suffix of [s] after its first [n] code units. *)
Fixpoint skip (n : nat) (s : string) : string :=
  match n, s with
  | O, _ => s
  | S _, EmptyString => EmptyString
  | S n', String _ s' => skip n' s'
  end.

(** [s.replace(pat, rep)] for a string pattern: the first occurrence of
    [pat], searched from the left, is replaced; [rep] is used literally
    (the proxy only passes the empty replacement, which holds no [$]
    pattern). *)
Fixpoint replace (s pat rep : string) : string :=
  if String.prefix pat s then rep +:+ skip (String.length pat) s
  else match s with
       | EmptyString => EmptyString
       | String c s' => String c (replace s' pat rep)
       end.

(** [s.includes(sub)] *)
Fixpoint includes (s sub : string) : bool :=
  if String.prefix sub s then true
  else match s with
       | EmptyString => false
       | String _ s' => includes s' sub
       end.

(** [`${v}`] for a value of type [string | undefined]. *)
Definition template (v : option string) : string :=
  match v with
  | Some s => s
  | None => "undefined"
  end.

(** Truthiness of a [number | undefined] and of a string. *)
Definition truthy_num (v : option Z) : bool :=
  match v with
  | Some n => negb (n =? 0)
  | None => false
  end.

Definition truthy_str (s : string) : bool :=
  match s with
  | EmptyString => false
  | String _ _ => true
  end.

(** [v || 0] for the result of [Map.prototype.get]. *)
Definition or_zero (v : option Z) : Z :=
  match v with
  | Some n => n
  | None => 0
  end.

End JS.

(** ** Data model *)

(** Identity of a live JavaScript object (a request or a response). *)
Definition ref := nat.

(** [Cluster] is an opaque handle owned by the cluster manager. *)
Definition Cluster := nat.

(** [http.IncomingMessage], restricted to the properties the proxy touches. *)
Record IncomingMessage := mkRequest {
  method : string;
  headers : gmap string string;
  url : string
}.

(** Calls made on an [http.ServerResponse]. *)
Inductive ResponseCall :=
| WriteHead (code : Z) (hdrs : list (string * string))
| End (data : option string).

(** [http.ServerResponse]: its [statusCode] property and the calls made on
    it so far, oldest first. *)
Record ServerResponse := mkResponse {
  statusCode : option Z;
  calls : list ResponseCall
}.

(** [httpProxy.ServerOptions]; an object, hence always truthy. *)
Record ServerOptions := mkTarget { target : string }.

(** The closure handed to [setTimeout] by the error hook: its captured
    variables. *)
Record Retry := mkRetry {
  retryCounterKey : string;
  retryCount : Z;
  retryReq : ref;
  retryRes : ref
}.

(** Calls observed on the retry ledger and on the collaborators. *)
Inductive Event :=
| CountersHas (key : string)
| CountersGet (key : string)
| CountersSet (key : string) (n : Z)
| CountersDelete (key : string)
| EnsureServer (c : Cluster)
| GetApiTarget (c : Cluster) (isWatchRequest : bool)
| ProxyWeb (req res : ref) (t : ServerOptions)
| RouterRoute (c : Cluster) (req res : ref).

(** Result of awaiting a promise of a collaborator. *)
Inductive Awaited (A : Type) :=
| Resolved (a : A)
| Failed.
Arguments Resolved {A} a.
Arguments Failed {A}.

(** The collaborators of the proxy, none of which is part of the module:
    the cluster manager's lookup and the context handler's methods. A
    falsy result of [getApiTarget] is [None]. *)
Record Collaborators := mkCollaborators {
  getClusterForRequest : IncomingMessage -> option Cluster;
  proxyServerError : Cluster -> string;
  ensureServer : Cluster -> Awaited unit;
  getApiTarget : Cluster -> bool -> Awaited (option ServerOptions)
}.

(** The proxy instance ([closed], [retryCounters]) together with the part
    of the JavaScript world it acts on. *)
Record World := mkWorld {
  closed : bool;
  retryCounters : gmap string Z;
  requests : ref -> IncomingMessage;
  responses : ref -> ServerResponse;
  timers : list (Z * Retry);
  trace : list Event
}.

(** ** The monad of handlers *)

(** A handler either completes or ends in a rejected promise; the effects
    performed before the rejection stay. *)
Inductive Completion (A : Type) :=
| Normal (a : A)
| Rejection.
Arguments Normal {A} a.
Arguments Rejection {A}.

Definition M (A : Type) : Type := World -> Completion A * World.

#[global] Instance M_ret : MRet M := fun A a w => (Normal a, w).

#[global] Instance M_bind : MBind M := fun A B f m w =>
  match m w with
  | (Normal a, w') => f a w'
  | (Rejection, w') => (Rejection, w')
  end.

Definition await {A} (p : Awaited A) : M A := fun w =>
  match p with
  | Resolved a => (Normal a, w)
  | Failed => (Rejection, w)
  end.

(** A call of an async function that is not awaited: a rejection stays in
    the dropped promise. *)
Definition detach {A} (m : M A) : M unit := fun w => (Normal tt, snd (m w)).

Definition getClosed : M bool := fun w => (Normal (closed w), w).

Definition getReq (r : ref) : M IncomingMessage := fun w => (Normal (requests w r), w).

Definition getRes (s : ref) : M ServerResponse := fun w => (Normal (responses w s), w).

Definition setReq (r : ref) (q : IncomingMessage) : M unit := fun w =>
  (Normal tt,
   mkWorld (closed w) (retryCounters w) (<[r := q]> (requests w)) (responses w)
           (timers w) (trace w)).

Definition setRes (s : ref) (p : ServerResponse) : M unit := fun w =>
  (Normal tt,
   mkWorld (closed w) (retryCounters w) (requests w) (<[s := p]> (responses w))
           (timers w) (trace w)).

Definition emit (e : Event) : M unit := fun w =>
  (Normal tt,
   mkWorld (closed w) (retryCounters w) (requests w) (responses w)
           (timers w) (trace w ++ [e])).

Definition updCounters (f : gmap string Z -> gmap string Z) : M unit := fun w =>
  (Normal tt,
   mkWorld (closed w) (f (retryCounters w)) (requests w) (responses w)
           (timers w) (trace w)).

(** [setTimeout(cb, timeoutMs)] *)
Definition setTimeout (cb : Retry) (timeoutMs : Z) : M unit := fun w =>
  (Normal tt,
   mkWorld (closed w) (retryCounters w) (requests w) (responses w)
           (timers w ++ [(timeoutMs, cb)]) (trace w)).

(** *** [Map<string, number>] *)

Definition countersHas (key : string) : M bool := fun w =>
  (Normal (bool_decide (is_Some (retryCounters w !! key))), snd (emit (CountersHas key) w)).

Definition countersGet (key : string) : M (option Z) := fun w =>
  (Normal (retryCounters w !! key), snd (emit (CountersGet key) w)).

Definition countersSet (key : string) (n : Z) : M unit :=
  emit (CountersSet key n);; updCounters (insert key n).

Definition countersDelete (key : string) : M unit :=
  emit (CountersDelete key);; updCounters (delete key).

(** *** [http.ServerResponse] *)

(** [res.statusCode = code] *)
Definition setStatusCode (s : ref) (code : Z) : M unit :=
  res ← getRes s;
  setRes s (mkResponse (Some code) (calls res)).

(** [res.writeHead(code, hdrs)]; Node stores [code] in [statusCode]. *)
Definition writeHead (s : ref) (code : Z) (hdrs : list (string * string)) : M unit :=
  res ← getRes s;
  setRes s (mkResponse (Some code) (calls res ++ [WriteHead code hdrs])).

(** [res.end(data)] *)
Definition end_ (s : ref) (data : option string) : M unit :=
  res ← getRes s;
  setRes s (mkResponse (statusCode res) (calls res ++ [End data])).

(** [res.headersSent]: the head is sent by the first [writeHead], write or
    [end] on the response, whoever made it. *)
Definition headersSent (res : ServerResponse) : bool :=
  match calls res with
  | [] => false
  | _ :: _ => true
  end.

(** A [throw]; a hook that throws ends like a handler whose promise
    rejects. *)
Definition throw {A} : M A := fun w => (Rejection, w).

(** [res.writeHead(code, hdrs)] with Node's check: on a head already sent
    the call throws ERR_HTTP_HEADERS_SENT before it stores anything. *)
Definition writeHeadOrThrow (s : ref) (code : Z) (hdrs : list (string * string)) : M unit :=
  res ← getRes s;
  if headersSent res then
    setRes s (mkResponse (statusCode res) (calls res ++ [WriteHead code hdrs]));;
    throw
  else writeHead s code hdrs.

(** ** The proxy *)

Definition text_plain : list (string * string) := [("Content-Type", "text/plain")].

(** [`${req.headers.host}${req.url}`] *)
Definition requestKey (req : IncomingMessage) : string :=
  JS.template (headers req !! "host") +:+ url req.

(** [!res.statusCode || res.statusCode >= 500] *)
Definition notStartedOrServerError (sc : option Z) : bool :=
  negb (JS.truthy_num sc) || match sc with Some n => 500 <=? n | None => false end.

Section LensProxy.

(** [apiPrefix.KUBE_BASE], a constant of [common/vars]. *)
Variable KUBE_BASE : string.

Variable env : Collaborators.

(** [contextHandler.ensureServer()], awaited. *)
Definition contextHandler_ensureServer (cluster : Cluster) : M unit :=
  emit (EnsureServer cluster);;
  await (ensureServer env cluster).

(** [contextHandler.getApiTarget(isWatchRequest)], awaited. *)
Definition contextHandler_getApiTarget (cluster : Cluster) (isWatchRequest : bool)
  : M (option ServerOptions) :=
  emit (GetApiTarget cluster isWatchRequest);;
  await (getApiTarget env cluster isWatchRequest).

(** [proxy.on("proxyRes", (proxyRes, req, res) => ...)]; [code] is
    [proxyRes.statusCode], a number on every response of a backend. The
    early [return] of the 502 branch is rendered by giving the rest of the
    hook a name. The transport emits this event before it writes anything
    of the backend's answer on [res], so [writeHead] is here the call on a
    head not yet sent. *)
Definition onProxyRes (code : Z) (r s : ref) : M unit :=
  req ← getReq r;
  let resetCounter : M unit :=
    if negb (String.eqb (method req) "GET") then mret tt
    else
      let key := requestKey req in
      present ← countersHas key;
      if (present : bool) then countersDelete key else mret tt in
  if code =? 502 then
    match getClusterForRequest env req with
    | Some cluster =>
        if JS.truthy_str (proxyServerError env cluster) then
          writeHead s code text_plain;;
          end_ s (Some (proxyServerError env cluster))
        else resetCounter
    | None => resetCounter
    end
  else resetCounter.

(** [getProxyTarget(req, contextHandler)] *)
Definition getProxyTarget (r : ref) (cluster : Cluster) : M (option ServerOptions) :=
  let prefix := KUBE_BASE in
  req ← getReq r;
  if JS.startsWith (url req) prefix then
    setReq r (mkRequest (method req) (delete "authorization" (headers req)) (url req));;
    req ← getReq r;
    setReq r (mkRequest (method req) (headers req) (JS.replace (url req) prefix ""));;
    req ← getReq r;
    let isWatchRequest := JS.includes (url req) "watch=" in
    contextHandler_getApiTarget cluster isWatchRequest
  else mret None.

(** [handleRequest(proxy, req, res)] *)
Definition handleRequest (r s : ref) : M unit :=
  req ← getReq r;
  match getClusterForRequest env req with
  | None =>
      setStatusCode s 503;;
      end_ s None
  | Some cluster =>
      contextHandler_ensureServer cluster;;
      proxyTarget ← getProxyTarget r cluster;
      match proxyTarget with
      | Some t => emit (ProxyWeb r s t)
      | None => emit (RouterRoute cluster r s)
      end
  end.

(** The callback scheduled by the error hook. *)
Definition retryCallback (cb : Retry) : M unit :=
  countersSet (retryCounterKey cb) (retryCount cb + 1);;
  detach (handleRequest (retryReq cb) (retryRes cb)).

(** [proxy.on("error", (error, req, res, target) => ...)]; a falsy
    [target] is [None]. There is no [try] around the last two calls: when
    [writeHead] throws, [end] is not reached. *)
Definition onError (r s : ref) (tgt : option ServerOptions) : M unit :=
  isClosed ← getClosed;
  if (isClosed : bool) then mret tt
  else
    match tgt with
    | Some _ =>
        req ← getReq r;
        res ← getRes s;
        if String.eqb (method req) "GET" && notStartedOrServerError (statusCode res) then
          let key := requestKey req in
          found ← countersGet key;
          let count := JS.or_zero found in
          let timeoutMs := count * 250 in
          if count <? 20 then setTimeout (mkRetry key count r s) timeoutMs
          else mret tt
        else mret tt
    | None => mret tt
    end;;
    writeHeadOrThrow s 500 text_plain;;
    end_ s (Some "Oops, something went wrong.").

(** [close()] *)
Definition close : M unit := fun w =>
  (Normal tt,
   mkWorld true (retryCounters w) (requests w) (responses w) (timers w) (trace w)).

End LensProxy.

(** ** The event loop

    What the runtime does with the proxy: the HTTP server accepts a request
    and calls [handleRequest] on fresh request and response objects
    ([buildProxyServer]), the transport reports a backend response or a
    failure for a request, a pending timer fires, or [close] is called.
    The collaborators may answer differently at every turn. *)

Inductive Action :=
| Inbound (env : Collaborators) (r s : ref) (req : IncomingMessage) (res : ServerResponse)
| BackendResponse (env : Collaborators) (code : Z) (r s : ref)
| BackendFailure (r s : ref) (tgt : option ServerOptions)
| Fire (env : Collaborators) (i : nat)
| Shutdown.

(** No pending callback has captured the objects [r] and [s]. *)
Definition fresh (r s : ref) (w : World) : bool :=
  forallb (fun t => negb (Nat.eqb (retryReq (snd t)) r) && negb (Nat.eqb (retryRes (snd t)) s))
          (timers w).

Definition install (r s : ref) (req : IncomingMessage) (res : ServerResponse) (w : World) : World :=
  mkWorld (closed w) (retryCounters w) (<[r := req]> (requests w)) (<[s := res]> (responses w))
          (timers w) (trace w).

Definition cancel (i : nat) (w : World) : World :=
  mkWorld (closed w) (retryCounters w) (requests w) (responses w)
          (delete i (timers w)) (trace w).

Section EventLoop.

Variable KUBE_BASE : string.

Definition perform (a : Action) (w : World) : option World :=
  match a with
  | Inbound env r s req res =>
      if fresh r s w
      then Some (snd (handleRequest KUBE_BASE env r s (install r s req res w)))
      else None
  | BackendResponse env code r s => Some (snd (onProxyRes env code r s w))
  | BackendFailure r s tgt => Some (snd (onError r s tgt w))
  | Fire env i =>
      match timers w !! i with
      | Some (_, cb) => Some (snd (retryCallback KUBE_BASE env cb (cancel i w)))
      | None => None
      end
  | Shutdown => Some (snd (close w))
  end.

(** The request an action is about, as it is when the action starts. *)
Definition subject (a : Action) (w : World) : option IncomingMessage :=
  match a with
  | Inbound _ _ _ req _ => Some req
  | BackendResponse _ _ r _ => Some (requests w r)
  | BackendFailure r _ _ => Some (requests w r)
  | Fire _ i =>
      match timers w !! i with
      | Some (_, cb) => Some (requests w (retryReq cb))
      | None => None
      end
  | Shutdown => None
  end.

(** A freshly constructed proxy: open, with an empty ledger and nothing
    pending. *)
Definition initial (w : World) : Prop :=
  closed w = false /\ retryCounters w = ∅ /\ timers w = [] /\ trace w = [].

Inductive reachable : World -> Prop :=
| reachable_initial w : initial w -> reachable w
| reachable_step w a w' : reachable w -> perform a w = Some w' -> reachable w'.

End EventLoop.

(** The events a handler added to the trace. *)
Definition emitted (w w' : World) : list Event := drop (length (trace w)) (trace w').

Definition isCountersEvent (e : Event) : bool :=
  match e with
  | CountersHas _ | CountersGet _ | CountersSet _ _ | CountersDelete _ => true
  | _ => false
  end.

(** The generic failure response of the error hook. *)
Definition generic500 : list ResponseCall :=
  [WriteHead 500 text_plain; End (Some "Oops, something went wrong.")].

(** ** Predicates used in the statements *)

(** What [getProxyTarget] does to the world before it asks the context
    handler: the request object [r] is rewritten, nothing else moves. *)
Definition rewritten (KUBE_BASE : string) (r : ref) (w w1 : World) : Prop :=
  let req := requests w r in
  requests w1 r = mkRequest (method req) (delete "authorization" (headers req))
                            (JS.skip (String.length KUBE_BASE) (url req))
  /\ (forall r', r' <> r -> requests w1 r' = requests w r')
  /\ closed w1 = closed w
  /\ retryCounters w1 = retryCounters w
  /\ responses w1 = responses w
  /\ timers w1 = timers w
  /\ trace w1 = trace w.

(** The request was passed to [router.route] with some cluster. *)
Definition handedToRouter (r s : ref) (evs : list Event) : Prop :=
  exists c, RouterRoute c r s ∈ evs.

(** The request was passed to [proxy.web] with some target. *)
Definition forwardedToBackend (r s : ref) (evs : list Event) : Prop :=
  exists t, ProxyWeb r s t ∈ evs.

(** The context handler was asked for a backend target. *)
Definition targetResolved (evs : list Event) : Prop :=
  exists c b, GetApiTarget c b ∈ evs.

(** The hook answers with the cluster's own message: the backend said 502
    and the cluster of the request has a non-empty [proxyServerError()]. *)
Definition customMessage (env : Collaborators) (code : Z) (req : IncomingMessage)
    (msg : string) : Prop :=
  code = 502
  /\ exists c, getClusterForRequest env req = Some c
               /\ proxyServerError env c = msg
               /\ JS.truthy_str msg = true.

(** The client's response received the generic failure page. *)
Definition receivesGeneric500 (s : ref) (w w' : World) : Prop :=
  statusCode (responses w' s) = Some 500
  /\ calls (responses w' s) = calls (responses w s) ++ generic500.

(** [quiet w w']: from [w] to [w'] the proxy stays open or closed as it
    was, the ledger and the pending timers are the same, no request changed
    its method, and the trace grew by calls none of which is on the
    ledger. *)
Definition quiet (w w' : World) : Prop :=
  closed w' = closed w
  /\ retryCounters w' = retryCounters w
  /\ timers w' = timers w
  /\ (forall r, method (requests w' r) = method (requests w r))
  /\ exists evs, trace w' = trace w ++ evs /\ Forall (fun e => isCountersEvent e = false) evs.

Definition Quiet {A} (m : M A) : Prop := forall w, quiet w (snd (m w)).

(** A pending callback was scheduled for a GET request, with a count below
    the cap and the delay the count gives. *)
Definition soundTimer (w : World) (t : Z * Retry) : Prop :=
  0 <= retryCount (snd t) < 20
  /\ fst t = retryCount (snd t) * 250
  /\ method (requests w (retryReq (snd t))) = "GET".

(** Every entry of the ledger counts between 1 and 20 attempts and every
    pending callback is sound. *)
Definition Inv (w : World) : Prop :=
  map_Forall (fun _ v => 1 <= v <= 20) (retryCounters w)
  /\ Forall (soundTimer w) (timers w).

(** ** Sample worlds *)

(** Sample objects on which the statements below are exercised. *)
Module Sample.

Definition KUBE_BASE : string := "/api-kube".

Definition backend : ServerOptions := mkTarget "http://127.0.0.1:8001".

(** One registered cluster whose backend is reachable. *)
Definition env : Collaborators :=
  mkCollaborators (fun _ => Some 7%nat) (fun _ => "") (fun _ => Resolved tt)
                  (fun _ _ => Resolved (Some backend)).

(** The same cluster while its backend reports a start-up error. *)
Definition starting : Collaborators :=
  mkCollaborators (fun _ => Some 7%nat) (fun _ => "cluster is starting") (fun _ => Resolved tt)
                  (fun _ _ => Resolved (Some backend)).

(** An empty cluster registry. *)
Definition nobody : Collaborators :=
  mkCollaborators (fun _ => None) (fun _ => "") (fun _ => Resolved tt)
                  (fun _ _ => Resolved (Some backend)).

(** The cluster is registered but its readiness check fails. *)
Definition unready : Collaborators :=
  mkCollaborators (fun _ => Some 7%nat) (fun _ => "") (fun _ => Failed)
                  (fun _ _ => Resolved (Some backend)).

Definition hdrs : gmap string string :=
  <["authorization" := "Bearer t0k3n"]> (<["host" := "c1.localhost:9000"]> ∅).

Definition watchPods : IncomingMessage :=
  mkRequest "GET" hdrs "/api-kube/api/v1/pods?watch=1".

Definition failedPods : IncomingMessage :=
  mkRequest "GET" hdrs "/api/v1/pods".

Definition postPods : IncomingMessage :=
  mkRequest "POST" hdrs "/api/v1/pods".

Definition dashboard : IncomingMessage :=
  mkRequest "GET" hdrs "/app/dashboard".

(** A proxy serving the single request [req], whose response has not
    started, with the given ledger. *)
Definition serving (isClosed : bool) (ledger : gmap string Z) (req : IncomingMessage) : World :=
  mkWorld isClosed ledger (fun _ => req) (fun _ => mkResponse None []) [] [].

(** An API watch request has just arrived at an open proxy. *)
Definition arrival : World := serving false ∅ watchPods.

(** A request for an internal page has just arrived. *)
Definition internal : World := serving false ∅ dashboard.

(** The key of [failedPods] and of [postPods]. *)
Definition podsKey : string := "c1.localhost:9000/api/v1/pods".

End Sample.

(** The first scenario of the specification: a watch request is forwarded,
    the transport fails and a retry is scheduled; then the same url keeps
    failing until the ledger holds 20. *)
Module Scenario.

(** The request was dispatched and passed to the transport. *)
Definition forwarded : World :=
  snd (handleRequest Sample.KUBE_BASE Sample.env 0%nat 0%nat Sample.arrival).

(** The transport failed and the error hook ran. *)
Definition failed : World :=
  snd (onError 0%nat 0%nat (Some Sample.backend) forwarded).

Definition retry : Retry :=
  mkRetry "c1.localhost:9000/api/v1/pods?watch=1" 0 0%nat 0%nat.

(** One client asks for the watch url on fresh objects [i], the transport
    fails, and the retry the hook scheduled fires. *)
Definition attempt (i : nat) (w : World) : option World :=
  w1 ← perform Sample.KUBE_BASE
         (Inbound Sample.env i i Sample.watchPods (mkResponse None [])) w;
  w2 ← perform Sample.KUBE_BASE (BackendFailure i i (Some Sample.backend)) w1;
  perform Sample.KUBE_BASE (Fire Sample.env 0) w2.

Fixpoint attempts (n i : nat) (w : World) : option World :=
  match n with
  | O => Some w
  | S n' => w' ← attempt i w; attempts n' (S i) w'
  end.

(** Twenty such attempts in a row, then the same url is asked for once
    more (objects 20) and forwarded. *)
Definition exhausting : option World :=
  w ← attempts 20 0 Sample.arrival;
  perform Sample.KUBE_BASE
    (Inbound Sample.env 20%nat 20%nat Sample.watchPods (mkResponse None [])) w.

Definition exhausted : World := default Sample.arrival exhausting.

End Scenario.

(** ** Sequences of turns *)

(** The turns of [actions], one after the other. *)
Fixpoint performAll (KUBE_BASE : string) (actions : list Action) (w : World) : option World :=
  match actions with
  | [] => Some w
  | a :: rest => w' ← perform KUBE_BASE a w; performAll KUBE_BASE rest w'
  end.

Definition isFire (a : Action) : bool :=
  match a with
  | Fire _ _ => true
  | _ => false
  end.

(** The condition under which the error hook reaches its [setTimeout]. *)
Definition retryDue (r s : ref) (tgt : option ServerOptions) (w : World) : Prop :=
  closed w = false
  /\ is_Some tgt
  /\ method (requests w r) = "GET"
  /\ notStartedOrServerError (statusCode (responses w s)) = true
  /\ JS.or_zero (retryCounters w !! requestKey (requests w r)) < 20.


(** ** Allowed resources

    [isAllowedResource] of the renderer: it reads [allowedResources] off
    the hosted cluster, which is a parameter here. *)

Module Resources.

(** The argument, of type [string | string[]]. *)
Inductive Arg :=
| One (resource : string)
| Many (resources : list string).

(** [allowedResources.includes(resource)] *)
Fixpoint includes (allowedResources : list string) (resource : string) : bool :=
  match allowedResources with
  | [] => false
  | x :: rest => if String.eqb x resource then true else includes rest resource
  end.

(** The [for ... of] loop with its early [return false]. *)
Fixpoint forOf (allowedResources : list string) (resources : list string) : bool :=
  match resources with
  | [] => true
  | resource :: rest =>
      if negb (includes allowedResources resource) then false
      else forOf allowedResources rest
  end.

Definition isAllowedResource (allowedResources : list string) (resources : Arg) : bool :=
  let resources :=
    match resources with
    | One resource => [resource]
    | Many l => l
    end in
  forOf allowedResources resources.

End Resources.

(** Further sample worlds. *)
Module Sample2.

(** The registered cluster's context handler cannot name a target. *)
Definition targetless : Collaborators :=
  mkCollaborators (fun _ => Some 7%nat) (fun _ => "") (fun _ => Resolved tt)
                  (fun _ _ => Failed).

(** The context handler answers with a falsy target. *)
Definition falsy : Collaborators :=
  mkCollaborators (fun _ => Some 7%nat) (fun _ => "") (fun _ => Resolved tt)
                  (fun _ _ => Resolved None).

Definition nested : IncomingMessage :=
  mkRequest "GET" Sample.hdrs "/api-kube/api-kube/version".

(** Two clients asked for the same url; both requests are in flight. *)
Definition twoClients : World :=
  mkWorld false {[Sample.podsKey := 3]} (fun _ => Sample.failedPods)
          (fun _ => mkResponse None []) [] [].


End Sample2.

(** Worlds in which the transport has already touched the response. *)
Module Sample3.

(** The transport has copied the backend's 502 onto the response and sent
    nothing yet; the ledger holds 3 for the request's key. *)
Definition badGateway : World :=
  mkWorld false {[Sample.podsKey := 3]} (fun _ => Sample.failedPods)
          (fun _ => mkResponse (Some 502) []) [] [].

(** The same with the retries used up. *)
Definition usedUp : World :=
  mkWorld false {[Sample.podsKey := 20]} (fun _ => Sample.failedPods)
          (fun _ => mkResponse (Some 502) []) [] [].

(** The retries are used up and the transport has already sent the head of
    the backend's 502. *)
Definition started : World :=
  mkWorld false {[Sample.podsKey := 20]} (fun _ => Sample.failedPods)
          (fun _ => mkResponse (Some 502) [WriteHead 502 []]) [] [].

End Sample3.

(** ** Facts about the string operations *)

Example replace_first : JS.replace "/api-kube/api-kube/x" "/api-kube" "" = "/api-kube/x".
Proof. reflexivity. Qed.

Example replace_inner : JS.replace "/x/api-kube/y" "/api-kube" "" = "/x/y".
Proof. reflexivity. Qed.

Example includes_watch : JS.includes "/api/v1/pods?watch=1" "watch=" = true.
Proof. reflexivity. Qed.

Example includes_none : JS.includes "/api/v1/watch" "watch=" = false.
Proof. reflexivity. Qed.

Module JSFacts.

Lemma append_nil (t : string) : "" +:+ t = t.
Proof. reflexivity. Qed.

Lemma append_cons (a : ascii) (p t : string) : String a p +:+ t = String a (p +:+ t).
Proof. reflexivity. Qed.

Lemma prefix_nil (s : string) : String.prefix "" s = true.
Proof. destruct s; reflexivity. Qed.

Lemma prefix_split (p s : string) :
  String.prefix p s = true <-> exists t, s = p +:+ t.
Proof.
  revert s. induction p as [|a p IH]; intros s.
  - rewrite prefix_nil. split; [intros _; exists s; reflexivity | reflexivity].
  - destruct s as [|b s]; simpl.
    + split; [discriminate | intros [t Ht]; rewrite append_cons in Ht; discriminate].
    + destruct (Ascii.ascii_dec a b) as [->|Hne].
      * rewrite IH. split; intros [t Ht]; exists t; rewrite append_cons in *; congruence.
      * split; [discriminate | intros [t Ht]; rewrite append_cons in Ht; congruence].
Qed.

Lemma skip_app (p t : string) : JS.skip (String.length p) (p +:+ t) = t.
Proof.
  induction p as [|a p IH].
  - rewrite append_nil. reflexivity.
  - rewrite append_cons. exact IH.
Qed.

Lemma startsWith_split (s p : string) :
  JS.startsWith s p = true -> s = p +:+ JS.skip (String.length p) s.
Proof.
  unfold JS.startsWith. intros H. apply prefix_split in H as [t ->].
  now rewrite skip_app.
Qed.

(** On a string that starts with the pattern, [replace] with the empty
    replacement removes exactly that leading occurrence. *)
Lemma replace_startsWith (s p : string) :
  JS.startsWith s p = true -> JS.replace s p "" = JS.skip (String.length p) s.
Proof.
  unfold JS.startsWith. intros H. destruct s; simpl in *; rewrite H; reflexivity.
Qed.

Lemma includes_unfold (s sub : string) :
  JS.includes s sub =
  if String.prefix sub s then true
  else match s with
       | EmptyString => false
       | String _ s' => JS.includes s' sub
       end.
Proof. destruct s; reflexivity. Qed.

Lemma includes_split (s sub : string) :
  JS.includes s sub = true <-> exists pre post, s = pre +:+ sub +:+ post.
Proof.
  split.
  - induction s as [|c s IH]; rewrite includes_unfold.
    + destruct (String.prefix sub "") eqn:E; [intros _ | discriminate].
      apply prefix_split in E as [t Ht]. exists "", t. exact Ht.
    + destruct (String.prefix sub (String c s)) eqn:E.
      * intros _. apply prefix_split in E as [t Ht]. exists "", t. exact Ht.
      * intros H. destruct (IH H) as (pre & post & ->).
        exists (String c pre), post. reflexivity.
  - intros (pre & post & ->). induction pre as [|c pre IH]; rewrite includes_unfold.
    + rewrite append_nil.
      assert (String.prefix sub (sub +:+ post) = true) as -> by (apply prefix_split; eauto).
      reflexivity.
    + rewrite append_cons, IH. now destruct (String.prefix _ _).
Qed.

End JSFacts.

(** ** Running handlers *)

#[local] Arguments fn_insert : simpl never.

Ltac run :=
  unfold contextHandler_ensureServer, contextHandler_getApiTarget;
  unfold writeHeadOrThrow;
  unfold countersHas, countersGet, countersSet, countersDelete, setStatusCode, writeHead, end_;
  unfold mbind, mret, M_bind, M_ret, getClosed, getReq, getRes, setReq, setRes, emit,
    updCounters, setTimeout, await, detach, throw;
  cbn.

(** Closes a goal from a membership [H : e ∈ l] in an explicit list none of
    whose elements can be [e]. *)
Ltac absurd_elem H :=
  repeat (apply elem_of_cons in H as [H|H]; [discriminate H |]);
  now apply elem_of_nil in H.

(** Splits on the condition of the first conditional of the goal. *)
Ltac case_if :=
  match goal with
  | |- context [if ?b then _ else _] => destruct b eqn:?
  end.

Lemma emitted_app (w w' : World) (evs : list Event) :
  trace w' = trace w ++ evs -> emitted w w' = evs.
Proof. intros H. unfold emitted. rewrite H. apply drop_app_length. Qed.

Lemma emitted_same (w w' : World) : trace w' = trace w -> emitted w w' = [].
Proof. intros H. apply emitted_app. now rewrite app_nil_r. Qed.

(** ** Dispatch: [handleRequest] and [getProxyTarget] *)

(** C6. When the cluster lookup yields nothing for a request, dispatch sets
    status 503 on the response and ends it without data; it calls neither
    the readiness check, the target resolution, the transport nor the
    router, leaves the request as it is and leaves the retry ledger and the
    pending timers unchanged. *)
Theorem handleRequest_unknown_cluster (KUBE_BASE : string) (env : Collaborators)
    (r s : ref) (w : World) :
  getClusterForRequest env (requests w r) = None ->
  let w' := snd (handleRequest KUBE_BASE env r s w) in
  fst (handleRequest KUBE_BASE env r s w) = Normal tt
  /\ statusCode (responses w' s) = Some 503
  /\ calls (responses w' s) = calls (responses w s) ++ [End None]
  /\ emitted w w' = []
  /\ requests w' = requests w
  /\ retryCounters w' = retryCounters w
  /\ timers w' = timers w.
Proof.
  intros H w'. subst w'. unfold handleRequest. run. rewrite H. cbn.
  rewrite !fn_lookup_insert. cbn.
  repeat split. now apply emitted_same.
Qed.

Lemma handleRequest_unknown_cluster_witness :
  getClusterForRequest Sample.nobody (requests Sample.arrival 0%nat) = None
  /\ statusCode (responses (snd (handleRequest Sample.KUBE_BASE Sample.nobody 0%nat 0%nat
                                   Sample.arrival)) 0%nat) = Some 503
  /\ calls (responses (snd (handleRequest Sample.KUBE_BASE Sample.nobody 0%nat 0%nat
                              Sample.arrival)) 0%nat) = [End None]
  /\ emitted Sample.arrival
             (snd (handleRequest Sample.KUBE_BASE Sample.nobody 0%nat 0%nat Sample.arrival)) = [].
Proof.
  split; [reflexivity |].
  pose proof (handleRequest_unknown_cluster Sample.KUBE_BASE Sample.nobody 0%nat 0%nat
                Sample.arrival eq_refl) as H.
  cbv zeta in H. destruct H as (_ & H1 & H2 & H3 & _).
  split; [exact H1 | split; [exact H2 | exact H3]].
Defined.

Lemma getProxyTarget_api (KUBE_BASE : string) (env : Collaborators) (r : ref) (c : Cluster)
    (w : World) :
  JS.startsWith (url (requests w r)) KUBE_BASE = true ->
  exists w1,
    rewritten KUBE_BASE r w w1
    /\ getProxyTarget KUBE_BASE env r c w =
       contextHandler_getApiTarget env c
         (JS.includes (JS.skip (String.length KUBE_BASE) (url (requests w r))) "watch=") w1.
Proof.
  intros H.
  set (req := requests w r).
  set (req1 := mkRequest (method req) (delete "authorization" (headers req)) (url req)).
  set (req2 := mkRequest (method req) (delete "authorization" (headers req))
                         (JS.skip (String.length KUBE_BASE) (url req))).
  exists (mkWorld (closed w) (retryCounters w) (<[r := req2]> (<[r := req1]> (requests w)))
                  (responses w) (timers w) (trace w)).
  split.
  - unfold rewritten. cbn [requests closed retryCounters responses timers trace].
    rewrite fn_lookup_insert.
    repeat split. intros r' Hr'. now rewrite !fn_lookup_insert_ne by congruence.
  - subst req1 req2 req. unfold getProxyTarget. run. rewrite H. cbn.
    rewrite !fn_lookup_insert. cbn.
    rewrite (JSFacts.replace_startsWith _ _ H). reflexivity.
Qed.

Lemma getProxyTarget_other (KUBE_BASE : string) (env : Collaborators) (r : ref) (c : Cluster)
    (w : World) :
  JS.startsWith (url (requests w r)) KUBE_BASE = false ->
  getProxyTarget KUBE_BASE env r c w = (Normal None, w).
Proof. intros H. unfold getProxyTarget. run. now rewrite H. Qed.

(** After a resolution on an API url: the one call made, and the request
    object as it is left. *)
Lemma getProxyTarget_api_after (KUBE_BASE : string) (env : Collaborators) (r : ref) (c : Cluster)
    (w : World) :
  JS.startsWith (url (requests w r)) KUBE_BASE = true ->
  emitted w (snd (getProxyTarget KUBE_BASE env r c w)) =
    [GetApiTarget c (JS.includes (JS.skip (String.length KUBE_BASE) (url (requests w r)))
                                 "watch=")]
  /\ url (requests (snd (getProxyTarget KUBE_BASE env r c w)) r) =
     JS.skip (String.length KUBE_BASE) (url (requests w r)).
Proof.
  intros H. destruct (getProxyTarget_api KUBE_BASE env r c w H) as (w1 & Hw1 & ->).
  destruct Hw1 as (Hreq & _ & _ & _ & _ & _ & Htr).
  unfold contextHandler_getApiTarget. run.
  split.
  - apply emitted_app. rewrite <- Htr. now destruct (getApiTarget env c _).
  - destruct (getApiTarget env c _); cbn; now rewrite Hreq.
Qed.

(** C7. For a request whose url starts with the API prefix, target
    resolution asks the context handler in a world where the request has
    already lost its authorization header and the leading prefix of its url
    (the old url is the prefix followed by the new one); the watch flag it
    passes is true exactly when the rewritten url contains ["watch="]. *)
Theorem getProxyTarget_rewrites_then_asks (KUBE_BASE : string) (env : Collaborators)
    (r : ref) (c : Cluster) (w : World) :
  JS.startsWith (url (requests w r)) KUBE_BASE = true ->
  exists (w1 : World) (isWatchRequest : bool),
    getProxyTarget KUBE_BASE env r c w = contextHandler_getApiTarget env c isWatchRequest w1
    /\ rewritten KUBE_BASE r w w1
    /\ headers (requests w1 r) !! "authorization" = None
    /\ (forall h, h <> "authorization" ->
          headers (requests w1 r) !! h = headers (requests w r) !! h)
    /\ url (requests w r) = KUBE_BASE +:+ url (requests w1 r)
    /\ method (requests w1 r) = method (requests w r)
    /\ (isWatchRequest = true <->
        exists pre post, url (requests w1 r) = pre +:+ "watch=" +:+ post)
    /\ emitted w (snd (getProxyTarget KUBE_BASE env r c w)) = [GetApiTarget c isWatchRequest].
Proof.
  intros H. destruct (getProxyTarget_api KUBE_BASE env r c w H) as (w1 & Hw1 & Heq).
  exists w1, (JS.includes (JS.skip (String.length KUBE_BASE) (url (requests w r))) "watch=").
  pose proof Hw1 as (Hreq & _ & _ & _ & _ & _ & Htr).
  split; [exact Heq | split; [exact Hw1 |]]. rewrite Hreq. cbn.
  split; [apply lookup_delete_eq |].
  split; [intros h Hh; now apply lookup_delete_ne |].
  split; [now apply JSFacts.startsWith_split |].
  split; [reflexivity |].
  split; [apply JSFacts.includes_split |].
  apply (getProxyTarget_api_after KUBE_BASE env r c w H).
Qed.

Lemma getProxyTarget_rewrites_then_asks_witness :
  JS.startsWith (url (requests Sample.arrival 0%nat)) Sample.KUBE_BASE = true
  /\ exists w1 isWatchRequest,
       getProxyTarget Sample.KUBE_BASE Sample.env 0%nat 7%nat Sample.arrival =
       contextHandler_getApiTarget Sample.env 7%nat isWatchRequest w1
       /\ headers (requests w1 0%nat) !! "authorization" = None
       /\ url (requests Sample.arrival 0%nat) = Sample.KUBE_BASE +:+ url (requests w1 0%nat).
Proof.
  split; [reflexivity |].
  destruct (getProxyTarget_rewrites_then_asks Sample.KUBE_BASE Sample.env 0%nat 7%nat
              Sample.arrival eq_refl)
    as (w1 & b & H1 & _ & H2 & _ & H3 & _).
  exists w1, b. split; [exact H1 | split; [exact H2 | exact H3]].
Defined.

(** What one run of [handleRequest] adds to the trace, by cases on the
    answers of the collaborators. *)
Lemma handleRequest_emitted (KUBE_BASE : string) (env : Collaborators) (r s : ref) (w : World) :
  emitted w (snd (handleRequest KUBE_BASE env r s w)) =
  match getClusterForRequest env (requests w r) with
  | None => []
  | Some c =>
      EnsureServer c ::
      match ensureServer env c with
      | Failed => []
      | Resolved _ =>
          if JS.startsWith (url (requests w r)) KUBE_BASE then
            let b := JS.includes (JS.skip (String.length KUBE_BASE) (url (requests w r))) "watch=" in
            GetApiTarget c b ::
            match getApiTarget env c b with
            | Failed => []
            | Resolved (Some t) => [ProxyWeb r s t]
            | Resolved None => [RouterRoute c r s]
            end
          else [RouterRoute c r s]
      end
  end.
Proof.
  unfold handleRequest at 1.
  change ((getReq r ≫= ?k) w) with (k (requests w r) w). cbv beta.
  destruct (getClusterForRequest env (requests w r)) as [c|].
  - change ((contextHandler_ensureServer env c ≫= ?k) w)
      with (match contextHandler_ensureServer env c w with
            | (Normal a, w') => k a w'
            | (Rejection, w') => (Rejection, w')
            end).
    unfold contextHandler_ensureServer at 1. run.
    destruct (ensureServer env c) as [[]|]; cbn; [| now apply emitted_app].
    match goal with |- context [getProxyTarget _ _ _ _ ?w0] => set (w1 := w0) end.
    change (requests w r) with (requests w1 r).
    destruct (JS.startsWith (url (requests w1 r)) KUBE_BASE) eqn:E.
    + destruct (getProxyTarget_api KUBE_BASE env r c w1 E) as (w2 & Hw2 & ->).
      destruct Hw2 as (_ & _ & _ & _ & _ & _ & Htr).
      unfold contextHandler_getApiTarget. run.
      destruct (getApiTarget env c _) as [[t|]|]; cbn;
        apply emitted_app; rewrite Htr; subst w1; cbn; now rewrite <- !app_assoc.
    + rewrite (getProxyTarget_other KUBE_BASE env r c w1 E). cbn.
      apply emitted_app. subst w1. cbn. now rewrite <- !app_assoc.
  - run. now apply emitted_same.
Qed.

(** C8 (as amended). For a request whose url does not start with the API
    prefix, target resolution yields no target and changes nothing; dispatch
    never passes such a request to the proxy transport nor asks for a
    backend target, and whenever a cluster is found for the request and its
    readiness check completes, dispatch hands the request to
    [router.route(cluster, req, res)]. *)
Theorem handleRequest_non_api (KUBE_BASE : string) (env : Collaborators) (r s : ref) (w : World) :
  JS.startsWith (url (requests w r)) KUBE_BASE = false ->
  let evs := emitted w (snd (handleRequest KUBE_BASE env r s w)) in
  (forall c, getProxyTarget KUBE_BASE env r c w = (Normal None, w))
  /\ ~ forwardedToBackend r s evs
  /\ ~ targetResolved evs
  /\ (forall c, getClusterForRequest env (requests w r) = Some c ->
                ensureServer env c = Resolved tt ->
                evs = [EnsureServer c; RouterRoute c r s]).
Proof.
  intros H evs. subst evs. rewrite handleRequest_emitted, H.
  split; [intros c; now apply getProxyTarget_other |].
  unfold forwardedToBackend, targetResolved.
  destruct (getClusterForRequest env (requests w r)) as [c|].
  - destruct (ensureServer env c) as [[]|] eqn:Ee.
    + split; [intros [t Ht]; absurd_elem Ht |].
      split; [intros (c' & b & Hb); absurd_elem Hb |].
      intros c' [= <-] _. reflexivity.
    + split; [intros [t Ht]; absurd_elem Ht |].
      split; [intros (c' & b & Hb); absurd_elem Hb |].
      intros c' [= <-] Hr. congruence.
  - split; [intros [t Ht]; absurd_elem Ht |].
    split; [intros (c' & b & Hb); absurd_elem Hb |].
    intros c' [=].
Qed.

Lemma handleRequest_non_api_witness :
  JS.startsWith (url (requests Sample.internal 0%nat)) Sample.KUBE_BASE = false
  /\ emitted Sample.internal
             (snd (handleRequest Sample.KUBE_BASE Sample.env 0%nat 0%nat Sample.internal)) =
     [EnsureServer 7%nat; RouterRoute 7%nat 0%nat 0%nat].
Proof.
  split; [reflexivity |].
  pose proof (handleRequest_non_api Sample.KUBE_BASE Sample.env 0%nat 0%nat
                Sample.internal eq_refl) as H.
  cbv zeta in H. destruct H as (_ & _ & _ & H).
  exact (H 7%nat eq_refl eq_refl).
Defined.

(** C8 as stated fails: a request outside the API prefix for which no
    cluster is registered is answered 503 and is not handed to the router;
    nor is one whose cluster fails the readiness check. *)
Lemma non_api_unknown_cluster_not_routed :
  JS.startsWith (url (requests Sample.internal 0%nat)) Sample.KUBE_BASE = false
  /\ ~ handedToRouter 0%nat 0%nat
        (emitted Sample.internal
                 (snd (handleRequest Sample.KUBE_BASE Sample.nobody 0%nat 0%nat Sample.internal)))
  /\ statusCode (responses (snd (handleRequest Sample.KUBE_BASE Sample.nobody 0%nat 0%nat
                                   Sample.internal)) 0%nat) = Some 503
  /\ ~ handedToRouter 0%nat 0%nat
        (emitted Sample.internal
                 (snd (handleRequest Sample.KUBE_BASE Sample.unready 0%nat 0%nat Sample.internal))).
Proof.
  split; [reflexivity |]. split; [| split; [reflexivity |]].
  - intros [c Hc]. change (RouterRoute c 0%nat 0%nat ∈ @nil Event) in Hc. absurd_elem Hc.
  - intros [c Hc]. change (RouterRoute c 0%nat 0%nat ∈ [EnsureServer 7%nat]) in Hc.
    absurd_elem Hc.
Qed.

(** ** The response hook: [proxy.on("proxyRes", ...)] *)


Lemma onProxyRes_plain (env : Collaborators) (code : Z) (r s : ref) (w : World) :
  (forall msg, ~ customMessage env code (requests w r) msg) ->
  onProxyRes env code r s w =
  (if negb (String.eqb (method (requests w r)) "GET") then mret tt
   else present ← countersHas (requestKey (requests w r));
        if (present : bool) then countersDelete (requestKey (requests w r)) else mret tt) w.
Proof.
  intros H. unfold onProxyRes.
  change ((getReq r ≫= ?k) w) with (k (requests w r) w). cbv beta zeta.
  destruct (code =? 502) eqn:E; [| reflexivity].
  apply Z.eqb_eq in E.
  destruct (getClusterForRequest env (requests w r)) as [c|] eqn:Ec; [| reflexivity].
  destruct (JS.truthy_str (proxyServerError env c)) eqn:Et; [| reflexivity].
  exfalso. apply (H (proxyServerError env c)). split; [exact E |]. eauto.
Qed.



(** C4 (as amended). For a GET request whose key is in the ledger, the
    hook removes the entry, unless it answered a 502 with the cluster's own
    message. *)
Theorem onProxyRes_clears_counter (env : Collaborators) (code : Z) (r s : ref) (w : World) :
  method (requests w r) = "GET" ->
  is_Some (retryCounters w !! requestKey (requests w r)) ->
  (forall msg, ~ customMessage env code (requests w r) msg) ->
  retryCounters (snd (onProxyRes env code r s w)) =
    delete (requestKey (requests w r)) (retryCounters w)
  /\ retryCounters (snd (onProxyRes env code r s w)) !! requestKey (requests w r) = None
  /\ emitted w (snd (onProxyRes env code r s w)) =
     [CountersHas (requestKey (requests w r)); CountersDelete (requestKey (requests w r))].
Proof.
  intros Hm Hk Hc. rewrite (onProxyRes_plain env code r s w Hc), Hm.
  change (negb ("GET" =? "GET")%string) with false. cbv iota. run.
  rewrite (bool_decide_eq_true_2 _ Hk). cbn.
  split; [reflexivity |]. split; [apply lookup_delete_eq |].
  apply emitted_app. cbn. now rewrite <- app_assoc.
Qed.

Lemma onProxyRes_clears_counter_witness :
  method (requests (Sample.serving false {[Sample.podsKey := 3]} Sample.failedPods) 0%nat) = "GET"
  /\ retryCounters (snd (onProxyRes Sample.env 200 0%nat 0%nat
                           (Sample.serving false {[Sample.podsKey := 3]} Sample.failedPods)))
       !! Sample.podsKey = None.
Proof.
  split; [reflexivity |].
  refine (proj1 (proj2 (onProxyRes_clears_counter Sample.env 200 0%nat 0%nat
            (Sample.serving false {[Sample.podsKey := 3]} Sample.failedPods) eq_refl _ _))).
  - exists 3. reflexivity.
  - intros msg (Hcode & _). discriminate Hcode.
Defined.

(** C4 as stated fails twice: the response to a POST whose key is in the
    ledger leaves the entry, and so does a 502 answered with the cluster's
    own message. *)
Lemma response_keeps_counter :
  (retryCounters (Sample.serving false {[Sample.podsKey := 3]} Sample.postPods)
     !! requestKey Sample.postPods = Some 3
   /\ retryCounters (snd (onProxyRes Sample.env 200 0%nat 0%nat
                            (Sample.serving false {[Sample.podsKey := 3]} Sample.postPods)))
        !! requestKey Sample.postPods = Some 3)
  /\ (retryCounters (Sample.serving false {[Sample.podsKey := 3]} Sample.failedPods)
        !! requestKey Sample.failedPods = Some 3
      /\ retryCounters (snd (onProxyRes Sample.starting 502 0%nat 0%nat
                               (Sample.serving false {[Sample.podsKey := 3]} Sample.failedPods)))
           !! requestKey Sample.failedPods = Some 3).
Proof. repeat split. Qed.

(** ** Handlers that leave the ledger alone *)

Lemma quiet_refl (w : World) : quiet w w.
Proof.
  repeat split. exists []. split; [now rewrite app_nil_r | constructor].
Qed.

Lemma quiet_trans (w1 w2 w3 : World) : quiet w1 w2 -> quiet w2 w3 -> quiet w1 w3.
Proof.
  intros (Hc & Hk & Ht & Hm & e1 & He1 & Hf1) (Hc' & Hk' & Ht' & Hm' & e2 & He2 & Hf2).
  split; [congruence |]. split; [congruence |]. split; [congruence |].
  split; [intros r; now rewrite Hm' |].
  exists (e1 ++ e2). split; [rewrite He2, He1; now rewrite app_assoc |].
  now apply Forall_app.
Qed.

Lemma quiet_trace_only (w : World) (evs : list Event) :
  Forall (fun e => isCountersEvent e = false) evs ->
  quiet w (mkWorld (closed w) (retryCounters w) (requests w) (responses w) (timers w)
                   (trace w ++ evs)).
Proof. intros H. repeat split. now exists evs. Qed.

Lemma quiet_responses_only (w : World) (f : ref -> ServerResponse) :
  quiet w (mkWorld (closed w) (retryCounters w) (requests w) f (timers w) (trace w)).
Proof. repeat split. exists []. split; [cbn; now rewrite app_nil_r | constructor]. Qed.

Create HintDb quiet.

Lemma Quiet_ret {A} (a : A) : Quiet (mret a).
Proof. intros w. apply quiet_refl. Qed.

Lemma Quiet_bind {A B} (m : M A) (f : A -> M B) :
  Quiet m -> (forall a, Quiet (f a)) -> Quiet (m ≫= f).
Proof.
  intros Hm Hf w. unfold mbind, M_bind. specialize (Hm w).
  destruct (m w) as [[a|] w1]; cbn in *; [| exact Hm].
  eapply quiet_trans; [exact Hm | apply Hf].
Qed.

Lemma Quiet_if {A} (b : bool) (m1 m2 : M A) : Quiet m1 -> Quiet m2 -> Quiet (if b then m1 else m2).
Proof. now destruct b. Qed.

Lemma Quiet_getClosed : Quiet getClosed.
Proof. intros w. apply quiet_refl. Qed.

Lemma Quiet_getReq (r : ref) : Quiet (getReq r).
Proof. intros w. apply quiet_refl. Qed.

Lemma Quiet_getRes (s : ref) : Quiet (getRes s).
Proof. intros w. apply quiet_refl. Qed.

Lemma Quiet_await {A} (p : Awaited A) : Quiet (await p).
Proof. intros w. destruct p; apply quiet_refl. Qed.

Lemma Quiet_detach {A} (m : M A) : Quiet m -> Quiet (detach m).
Proof. intros H w. apply H. Qed.

Lemma Quiet_emit (e : Event) : isCountersEvent e = false -> Quiet (emit e).
Proof. intros H w. apply quiet_trace_only. now repeat constructor. Qed.

Lemma Quiet_setRes (s : ref) (p : ServerResponse) : Quiet (setRes s p).
Proof. intros w. apply quiet_responses_only. Qed.

#[local] Hint Resolve Quiet_ret Quiet_getClosed Quiet_getReq Quiet_getRes Quiet_await
  Quiet_detach Quiet_emit Quiet_setRes : quiet.
#[local] Hint Extern 2 (Quiet (_ ≫= _)) => apply Quiet_bind; [| intros ?] : quiet.
#[local] Hint Extern 2 (Quiet (if _ then _ else _)) => apply Quiet_if : quiet.
#[local] Hint Extern 1 (isCountersEvent _ = false) => reflexivity : quiet.

Lemma Quiet_setStatusCode (s : ref) (code : Z) : Quiet (setStatusCode s code).
Proof. unfold setStatusCode. auto with quiet. Qed.

Lemma Quiet_writeHead (s : ref) (code : Z) (hdrs : list (string * string)) :
  Quiet (writeHead s code hdrs).
Proof. unfold writeHead. auto with quiet. Qed.

Lemma Quiet_end (s : ref) (data : option string) : Quiet (end_ s data).
Proof. unfold end_. auto with quiet. Qed.

#[local] Hint Resolve Quiet_setStatusCode Quiet_writeHead Quiet_end : quiet.

Lemma Quiet_ensureServer (env : Collaborators) (c : Cluster) :
  Quiet (contextHandler_ensureServer env c).
Proof. unfold contextHandler_ensureServer. auto with quiet. Qed.

Lemma Quiet_getApiTarget (env : Collaborators) (c : Cluster) (b : bool) :
  Quiet (contextHandler_getApiTarget env c b).
Proof. unfold contextHandler_getApiTarget. auto with quiet. Qed.

Lemma rewritten_quiet (KUBE_BASE : string) (r : ref) (w w1 : World) :
  rewritten KUBE_BASE r w w1 -> quiet w w1.
Proof.
  intros (Hr & Ho & Hc & Hk & _ & Ht & Htr).
  split; [exact Hc |]. split; [exact Hk |]. split; [exact Ht |]. split.
  - intros r'. destruct (decide (r' = r)) as [->|Hne]; [now rewrite Hr | now rewrite Ho].
  - exists []. split; [now rewrite app_nil_r | constructor].
Qed.

Lemma Quiet_getProxyTarget (KUBE_BASE : string) (env : Collaborators) (r : ref) (c : Cluster) :
  Quiet (getProxyTarget KUBE_BASE env r c).
Proof.
  intros w. destruct (JS.startsWith (url (requests w r)) KUBE_BASE) eqn:E.
  - destruct (getProxyTarget_api KUBE_BASE env r c w E) as (w1 & Hw1 & ->).
    eapply quiet_trans; [eapply rewritten_quiet, Hw1 | apply Quiet_getApiTarget].
  - rewrite (getProxyTarget_other KUBE_BASE env r c w E). apply quiet_refl.
Qed.

#[local] Hint Resolve Quiet_ensureServer Quiet_getApiTarget Quiet_getProxyTarget : quiet.

(** Dispatch never touches the ledger, the timers or the closed flag. *)
Lemma Quiet_handleRequest (KUBE_BASE : string) (env : Collaborators) (r s : ref) :
  Quiet (handleRequest KUBE_BASE env r s).
Proof.
  unfold handleRequest. apply Quiet_bind; [auto with quiet |]. intros req.
  destruct (getClusterForRequest env req) as [c|]; [| auto with quiet].
  apply Quiet_bind; [auto with quiet |]. intros _.
  apply Quiet_bind; [auto with quiet |]. intros [t|]; auto with quiet.
Qed.

(** ** The error hook: [proxy.on("error", ...)] *)

Lemma notStartedOrServerError_true (sc : option Z) :
  notStartedOrServerError sc = true <->
  JS.truthy_num sc = false \/ exists n, sc = Some n /\ 500 <= n.
Proof.
  unfold notStartedOrServerError. destruct sc as [n|]; cbn.
  - destruct (n =? 0) eqn:E0; cbn.
    + split; [now left | reflexivity].
    + rewrite Z.leb_le. split.
      * intros H. right. eauto.
      * intros [H | (m & [= <-] & H)]; [discriminate | exact H].
  - split; [now left | reflexivity].
Qed.

Lemma onError_closed (r s : ref) (tgt : option ServerOptions) (w : World) :
  closed w = true -> onError r s tgt w = (Normal tt, w).
Proof. intros H. unfold onError. run. now rewrite H. Qed.

(** Whatever happens, the hook leaves the ledger, the requests and the
    closed flag as they are. *)
Lemma onError_frame (r s : ref) (tgt : option ServerOptions) (w : World) :
  closed (snd (onError r s tgt w)) = closed w
  /\ retryCounters (snd (onError r s tgt w)) = retryCounters w
  /\ requests (snd (onError r s tgt w)) = requests w.
Proof.
  unfold onError. run. destruct (closed w) eqn:Hc; cbn; [now rewrite Hc |].
  destruct tgt as [t|]; cbn; repeat case_if; cbn; now rewrite ?Hc.
Qed.

(** On an open proxy the hook comes to its last two calls in a world that
    differs from the one it started in by the timers and the trace only. *)
Lemma onError_open (r s : ref) (tgt : option ServerOptions) (w : World) :
  closed w = false ->
  let key := requestKey (requests w r) in
  let count := JS.or_zero (retryCounters w !! key) in
  let due := match tgt with
             | Some _ => String.eqb (method (requests w r)) "GET"
                         && notStartedOrServerError (statusCode (responses w s))
             | None => false
             end in
  exists w1,
    responses w1 = responses w
    /\ timers w1 = (if due && (count <? 20)
                    then timers w ++ [(count * 250, mkRetry key count r s)]
                    else timers w)
    /\ trace w1 = (if due then trace w ++ [CountersGet key] else trace w)
    /\ onError r s tgt w =
       (writeHeadOrThrow s 500 text_plain;; end_ s (Some "Oops, something went wrong.")) w1.
Proof.
  intros Hc key count due.
  exists (mkWorld (closed w) (retryCounters w) (requests w) (responses w)
            (if due && (count <? 20)
             then timers w ++ [(count * 250, mkRetry key count r s)]
             else timers w)
            (if due then trace w ++ [CountersGet key] else trace w)).
  split; [reflexivity |]. split; [reflexivity |]. split; [reflexivity |].
  unfold onError. run. rewrite Hc. subst due key count.
  destruct tgt as [t|]; cbn; [| destruct w; cbn in *; now rewrite ?Hc].
  destruct (_ && _); cbn; [| destruct w; cbn in *; now rewrite ?Hc].
  destruct (_ <? 20); cbn; destruct (headersSent (responses w s)); cbn;
    now rewrite ?Hc.
Qed.

(** The last two calls leave everything but the response as it is. *)
Lemma answer500_frame (s : ref) (w : World) :
  let w' := snd ((writeHeadOrThrow s 500 text_plain;;
                  end_ s (Some "Oops, something went wrong.")) w) in
  closed w' = closed w /\ retryCounters w' = retryCounters w /\ requests w' = requests w
  /\ timers w' = timers w /\ trace w' = trace w.
Proof. cbv zeta. run. destruct (headersSent (responses w s)); cbn; repeat split. Qed.

(** The last two calls of the hook on a head not yet sent. *)
Lemma answer500_unsent (s : ref) (w : World) :
  headersSent (responses w s) = false ->
  fst ((writeHeadOrThrow s 500 text_plain;; end_ s (Some "Oops, something went wrong.")) w)
    = Normal tt
  /\ statusCode (responses (snd ((writeHeadOrThrow s 500 text_plain;;
                                  end_ s (Some "Oops, something went wrong.")) w)) s) = Some 500
  /\ calls (responses (snd ((writeHeadOrThrow s 500 text_plain;;
                             end_ s (Some "Oops, something went wrong.")) w)) s) =
     calls (responses w s) ++ generic500.
Proof.
  intros H. run. rewrite H. cbn. rewrite !fn_lookup_insert. cbn.
  now rewrite <- app_assoc.
Qed.


Lemma answer500_others (s s' : ref) (w : World) :
  s' <> s ->
  responses (snd ((writeHeadOrThrow s 500 text_plain;;
                   end_ s (Some "Oops, something went wrong.")) w)) s' = responses w s'.
Proof.
  intros Hne. run. destruct (headersSent (responses w s)); cbn;
    now rewrite !fn_lookup_insert_ne by congruence.
Qed.

(** On an open proxy, on a response whose head is not yet sent, the hook
    ends by writing the generic 500. *)
Lemma onError_writes_500 (r s : ref) (tgt : option ServerOptions) (w : World) :
  closed w = false ->
  headersSent (responses w s) = false ->
  fst (onError r s tgt w) = Normal tt
  /\ statusCode (responses (snd (onError r s tgt w)) s) = Some 500
  /\ calls (responses (snd (onError r s tgt w)) s) = calls (responses w s) ++ generic500.
Proof.
  intros Hc Hh. destruct (onError_open r s tgt w Hc) as (w1 & Hres & _ & _ & ->).
  rewrite <- Hres in Hh |- *. now apply answer500_unsent.
Qed.


Lemma onError_others (r s s' : ref) (tgt : option ServerOptions) (w : World) :
  s' <> s -> responses (snd (onError r s tgt w)) s' = responses w s'.
Proof.
  intros Hne. destruct (closed w) eqn:Hc; [now rewrite (onError_closed r s tgt w Hc) |].
  destruct (onError_open r s tgt w Hc) as (w1 & Hres & _ & _ & ->).
  rewrite <- Hres. now apply answer500_others.
Qed.

(** The timers after the hook: either the same, or one more, and then for
    a GET request on an open proxy with a count below 20. *)
Lemma onError_timers (r s : ref) (tgt : option ServerOptions) (w : World) :
  let key := requestKey (requests w r) in
  let count := JS.or_zero (retryCounters w !! key) in
  timers (snd (onError r s tgt w)) = timers w
  \/ (timers (snd (onError r s tgt w)) = timers w ++ [(count * 250, mkRetry key count r s)]
      /\ closed w = false
      /\ method (requests w r) = "GET"
      /\ count < 20).
Proof.
  cbv zeta. destruct (closed w) eqn:Hc; [left; now rewrite (onError_closed r s tgt w Hc) |].
  destruct (onError_open r s tgt w Hc) as (w1 & _ & Ht & _ & ->).
  destruct (answer500_frame s w1) as (_ & _ & _ & -> & _). rewrite Ht.
  destruct tgt as [t|]; cbn; [| now left].
  destruct (String.eqb (method (requests w r)) "GET") eqn:Hm; cbn; [| now left].
  destruct (notStartedOrServerError _); cbn; [| now left].
  destruct (_ <? 20) eqn:Hlt; cbn; [| now left].
  right. apply String.eqb_eq in Hm. apply Z.ltb_lt in Hlt. repeat split; assumption.
Qed.

(** The scheduled callback writes [retryCount + 1] under the captured key,
    whatever the ledger holds by then, and changes no other entry; the
    dispatch it then starts leaves the ledger alone. *)
Lemma retryCallback_effect (KUBE_BASE : string) (env : Collaborators) (cb : Retry) (w : World) :
  retryCounters (snd (retryCallback KUBE_BASE env cb w)) =
    <[retryCounterKey cb := retryCount cb + 1]> (retryCounters w)
  /\ timers (snd (retryCallback KUBE_BASE env cb w)) = timers w
  /\ closed (snd (retryCallback KUBE_BASE env cb w)) = closed w
  /\ (forall r, method (requests (snd (retryCallback KUBE_BASE env cb w)) r) =
                method (requests w r))
  /\ exists evs,
       emitted w (snd (retryCallback KUBE_BASE env cb w)) =
         CountersSet (retryCounterKey cb) (retryCount cb + 1) :: evs
       /\ Forall (fun e => isCountersEvent e = false) evs.
Proof.
  unfold retryCallback. run.
  match goal with |- context [handleRequest _ _ _ _ ?w0] => set (w1 := w0) end.
  destruct (Quiet_handleRequest KUBE_BASE env (retryReq cb) (retryRes cb) w1)
    as (Hc & Hk & Ht & Hm & evs & Htr & Hev).
  split; [now rewrite Hk |]. split; [now rewrite Ht |]. split; [now rewrite Hc |].
  split; [intros r; now rewrite Hm |].
  exists evs. split; [| exact Hev].
  apply emitted_app. rewrite Htr. subst w1. cbn. now rewrite <- app_assoc.
Qed.

(** The calls of the callback: the write to the ledger, then those of the
    dispatch it starts. *)
Lemma retryCallback_emitted (KUBE_BASE : string) (env : Collaborators) (cb : Retry) (w : World) :
  emitted w (snd (retryCallback KUBE_BASE env cb w)) =
  CountersSet (retryCounterKey cb) (retryCount cb + 1) ::
  emitted (snd (countersSet (retryCounterKey cb) (retryCount cb + 1) w))
          (snd (handleRequest KUBE_BASE env (retryReq cb) (retryRes cb)
                  (snd (countersSet (retryCounterKey cb) (retryCount cb + 1) w)))).
Proof.
  set (w1 := snd (countersSet (retryCounterKey cb) (retryCount cb + 1) w)).
  change (snd (retryCallback KUBE_BASE env cb w))
    with (snd (handleRequest KUBE_BASE env (retryReq cb) (retryRes cb) w1)).
  destruct (Quiet_handleRequest KUBE_BASE env (retryReq cb) (retryRes cb) w1)
    as (_ & _ & _ & _ & evs & Htr & _).
  rewrite (emitted_app w1 _ evs Htr).
  apply emitted_app. rewrite Htr. subst w1. run. now rewrite <- app_assoc.
Qed.

(** C1. On an open proxy, when forwarding a GET request to a resolved
    target fails, the response has not started (falsy status code) or has
    a status of at least 500, and the ledger's count for the request's key
    (0 when absent) is below 20, the error hook schedules one retry with a
    delay of count times 250 and does not touch the ledger itself. The
    scheduled callback, whenever it runs, sets the entry of that key to the
    count read by the hook plus 1 and then dispatches the same request and
    response objects again through [handleRequest]: its calls are the
    write to the ledger followed by those of that dispatch. *)
Theorem onError_schedules_retry (r s : ref) (t : ServerOptions) (w : World) :
  let key := requestKey (requests w r) in
  let count := JS.or_zero (retryCounters w !! key) in
  closed w = false ->
  method (requests w r) = "GET" ->
  (JS.truthy_num (statusCode (responses w s)) = false
   \/ exists n, statusCode (responses w s) = Some n /\ 500 <= n) ->
  count < 20 ->
  timers (snd (onError r s (Some t) w)) = timers w ++ [(count * 250, mkRetry key count r s)]
  /\ retryCounters (snd (onError r s (Some t) w)) = retryCounters w
  /\ emitted w (snd (onError r s (Some t) w)) = [CountersGet key]
  /\ forall KUBE_BASE env w0,
       retryCounters (snd (retryCallback KUBE_BASE env (mkRetry key count r s) w0)) !! key
         = Some (count + 1)
       /\ (forall k, k <> key ->
            retryCounters (snd (retryCallback KUBE_BASE env (mkRetry key count r s) w0)) !! k
              = retryCounters w0 !! k)
       /\ snd (retryCallback KUBE_BASE env (mkRetry key count r s) w0) =
          snd (handleRequest KUBE_BASE env r s (snd (countersSet key (count + 1) w0)))
       /\ emitted w0 (snd (retryCallback KUBE_BASE env (mkRetry key count r s) w0)) =
          CountersSet key (count + 1) ::
          emitted (snd (countersSet key (count + 1) w0))
                  (snd (handleRequest KUBE_BASE env r s (snd (countersSet key (count + 1) w0)))).
Proof.
  intros key count Hc Hm Hs Hlt.
  apply notStartedOrServerError_true in Hs. apply Z.ltb_lt in Hlt.
  destruct (onError_open r s (Some t) w Hc) as (w1 & _ & Ht & Htr & Heq).
  cbv zeta in Ht, Htr. fold key in Ht, Htr. fold count in Ht.
  rewrite Hm, Hs in Ht, Htr. cbn in Ht, Htr. rewrite Hlt in Ht.
  destruct (answer500_frame s w1) as (_ & _ & _ & Ht' & Htr').
  split; [| split; [apply onError_frame | split]].
  - now rewrite Heq, Ht'.
  - apply emitted_app. now rewrite Heq, Htr'.
  - intros KUBE_BASE env w0.
    destruct (retryCallback_effect KUBE_BASE env (mkRetry key count r s) w0) as (Hl & _).
    split; [rewrite Hl; apply lookup_insert_eq |].
    split; [intros k Hk; rewrite Hl; now apply lookup_insert_ne |].
    split; [reflexivity |].
    apply (retryCallback_emitted KUBE_BASE env (mkRetry key count r s) w0).
Qed.

Lemma onError_schedules_retry_witness :
  closed Sample3.badGateway = false
  /\ timers (snd (onError 0%nat 0%nat (Some Sample.backend) Sample3.badGateway)) =
     [(750, mkRetry Sample.podsKey 3 0%nat 0%nat)]
  /\ retryCounters (snd (retryCallback Sample.KUBE_BASE Sample.env
                           (mkRetry Sample.podsKey 3 0%nat 0%nat)
                           (snd (onError 0%nat 0%nat (Some Sample.backend) Sample3.badGateway))))
       !! Sample.podsKey = Some 4
  /\ emitted (snd (onError 0%nat 0%nat (Some Sample.backend) Sample3.badGateway))
             (snd (retryCallback Sample.KUBE_BASE Sample.env
                     (mkRetry Sample.podsKey 3 0%nat 0%nat)
                     (snd (onError 0%nat 0%nat (Some Sample.backend) Sample3.badGateway)))) =
     [CountersSet Sample.podsKey 4; EnsureServer 7%nat; RouterRoute 7%nat 0%nat 0%nat].
Proof.
  split; [reflexivity |].
  pose proof (onError_schedules_retry 0%nat 0%nat Sample.backend Sample3.badGateway) as H.
  cbv zeta in H.
  destruct H as (H1 & _ & _ & H2).
  - reflexivity.
  - reflexivity.
  - right. exists 502. split; [reflexivity | lia].
  - change (3 < 20). lia.
  - split; [exact H1 |].
    destruct (H2 Sample.KUBE_BASE Sample.env
                (snd (onError 0%nat 0%nat (Some Sample.backend) Sample3.badGateway)))
      as (H3 & _ & _ & H4).
    split; [exact H3 |]. etransitivity; [exact H4 | reflexivity].
Defined.

(** C3 is not what the hook does: for a GET failure on a response that
    carries a 502 and whose head is not yet sent, the hook schedules the
    retry (count 3, delay 750) and goes on to write the generic 500 on the
    same response and to end it. *)
Lemma onError_retry_and_500 :
  headersSent (responses Sample3.badGateway 0%nat) = false
  /\ timers (snd (onError 0%nat 0%nat (Some Sample.backend) Sample3.badGateway)) =
     [(750, mkRetry Sample.podsKey 3 0%nat 0%nat)]
  /\ fst (onError 0%nat 0%nat (Some Sample.backend) Sample3.badGateway) = Normal tt
  /\ statusCode (responses (snd (onError 0%nat 0%nat (Some Sample.backend) Sample3.badGateway))
                           0%nat) = Some 500
  /\ calls (responses (snd (onError 0%nat 0%nat (Some Sample.backend) Sample3.badGateway))
                      0%nat) = generic500.
Proof. repeat split. Qed.

(** ** Invariants of the event loop *)

Lemma soundTimer_methods (w w' : World) (t : Z * Retry) :
  method (requests w' (retryReq (snd t))) = method (requests w (retryReq (snd t))) ->
  soundTimer w t -> soundTimer w' t.
Proof. intros H (H1 & H2 & H3). repeat split; try tauto. now rewrite H. Qed.

Lemma soundTimers_methods (w w' : World) (l : list (Z * Retry)) :
  (forall r, method (requests w' r) = method (requests w r)) ->
  Forall (soundTimer w) l -> Forall (soundTimer w') l.
Proof.
  intros Hm. induction 1 as [|t l Ht _ IH]; constructor; [| exact IH].
  now apply (soundTimer_methods w).
Qed.

Lemma quiet_Inv (w w' : World) : quiet w w' -> Inv w -> Inv w'.
Proof.
  intros (_ & Hk & Ht & Hm & _) [Hl Hs]. split; [now rewrite Hk |].
  rewrite Ht. now apply (soundTimers_methods w).
Qed.

Lemma or_zero_nonneg (w : World) (key : string) :
  map_Forall (fun _ v => 1 <= v <= 20) (retryCounters w) ->
  0 <= JS.or_zero (retryCounters w !! key).
Proof.
  intros H. destruct (retryCounters w !! key) as [v|] eqn:E; cbn; [| lia].
  specialize (H key v E). cbn in H. lia.
Qed.

(** The response hook leaves the closed flag, the timers and the requests
    as they are; the ledger is the same or lost the entry of the request. *)
Lemma onProxyRes_frame (env : Collaborators) (code : Z) (r s : ref) (w : World) :
  closed (snd (onProxyRes env code r s w)) = closed w
  /\ timers (snd (onProxyRes env code r s w)) = timers w
  /\ requests (snd (onProxyRes env code r s w)) = requests w
  /\ (retryCounters (snd (onProxyRes env code r s w)) = retryCounters w
      \/ retryCounters (snd (onProxyRes env code r s w)) =
         delete (requestKey (requests w r)) (retryCounters w)).
Proof.
  unfold onProxyRes. run.
  destruct (code =? 502); [destruct (getClusterForRequest env (requests w r)) |];
    cbn; repeat case_if; cbn; repeat split; auto.
Qed.

Section Invariants.

Variable KUBE_BASE : string.

Lemma Inv_initial (w : World) : initial w -> Inv w.
Proof.
  intros (_ & Hk & Ht & _). split.
  - rewrite Hk. apply map_Forall_empty.
  - rewrite Ht. constructor.
Qed.

Lemma fresh_timer (r s : ref) (w : World) (t : Z * Retry) :
  fresh r s w = true -> In t (timers w) -> retryReq (snd t) <> r.
Proof.
  unfold fresh. rewrite forallb_forall. intros H Ht.
  specialize (H t Ht).
  apply andb_prop in H as [H _]. apply negb_true_iff, Nat.eqb_neq in H. exact H.
Qed.

Lemma Inv_install (r s : ref) (req : IncomingMessage) (res : ServerResponse) (w : World) :
  fresh r s w = true -> Inv w -> Inv (install r s req res w).
Proof.
  intros Hf [Hl Hs]. split; [exact Hl |]. cbn.
  apply Forall_forall. intros t Ht.
  rewrite Forall_forall in Hs.
  apply (soundTimer_methods w); [| now apply Hs].
  cbn. rewrite fn_lookup_insert_ne; [reflexivity |].
  intros E. now apply (fresh_timer r s w t Hf Ht).
Qed.

Lemma Inv_perform (a : Action) (w w' : World) :
  Inv w -> perform KUBE_BASE a w = Some w' -> Inv w'.
Proof.
  intros HI Hp. destruct a as [env r s req res | env code r s | r s tgt | env i |];
    unfold perform in Hp.
  - destruct (fresh r s w) eqn:Hf; [| discriminate]. apply (inj Some) in Hp; subst w'.
    eapply quiet_Inv; [apply Quiet_handleRequest | now apply Inv_install].
  - apply (inj Some) in Hp; subst w'.
    destruct (onProxyRes_frame env code r s w) as (_ & Ht & Hr & Hk).
    destruct HI as [Hl Hs]. split.
    + destruct Hk as [-> | ->]; [exact Hl | now apply map_Forall_delete].
    + rewrite Ht. apply (soundTimers_methods w); [| exact Hs].
      intros r'. now rewrite Hr.
  - apply (inj Some) in Hp; subst w'.
    destruct (onError_frame r s tgt w) as (_ & Hk & Hr).
    destruct HI as [Hl Hs]. split; [now rewrite Hk |].
    assert (Hs' : Forall (soundTimer (snd (onError r s tgt w))) (timers w)).
    { apply (soundTimers_methods w); [| exact Hs]. intros r'. now rewrite Hr. }
    destruct (onError_timers r s tgt w) as [-> | (-> & _ & Hm & Hlt)]; [exact Hs' |].
    apply Forall_app. split; [exact Hs' |]. constructor; [| constructor].
    repeat split; cbn; [now apply or_zero_nonneg | exact Hlt | now rewrite Hr].
  - destruct (timers w !! i) as [[d cb]|] eqn:Ei; [| discriminate]. apply (inj Some) in Hp; subst w'.
    destruct HI as [Hl Hs].
    assert (Hcb : soundTimer w (d, cb)).
    { rewrite Forall_forall in Hs. apply Hs, list_elem_of_In.
      eapply list_elem_of_lookup_2, Ei. }
    destruct (retryCallback_effect KUBE_BASE env cb (cancel i w)) as (Hk & Ht & _ & Hm & _).
    split.
    + rewrite Hk. cbn. apply map_Forall_insert_2; [| exact Hl].
      destruct Hcb as (Hc & _). cbn in Hc. lia.
    + rewrite Ht. cbn. apply Forall_delete.
      apply (soundTimers_methods w); [| exact Hs]. intros r'. now rewrite Hm.
  - apply (inj Some) in Hp; subst w'. exact HI.
Qed.

(** Every world the event loop can reach satisfies the invariant. *)
Lemma reachable_Inv (w : World) : reachable KUBE_BASE w -> Inv w.
Proof.
  induction 1 as [w Hi | w a w' _ IH Hp]; [now apply Inv_initial |].
  eapply Inv_perform; eassumption.
Qed.

End Invariants.

(** ** The cap on retries *)

(** C2 (as amended). On an open proxy, when forwarding a GET request fails
    and the ledger's count for its key has reached 20, the error hook
    schedules no retry and leaves the ledger as it is, and in every world
    the event loop can reach the entry then holds exactly 20; when the head
    of the response is not yet sent, the hook writes the generic 500 on
    it. *)
Theorem onError_retries_exhausted (r s : ref) (tgt : option ServerOptions) (w : World) :
  closed w = false ->
  method (requests w r) = "GET" ->
  20 <= JS.or_zero (retryCounters w !! requestKey (requests w r)) ->
  timers (snd (onError r s tgt w)) = timers w
  /\ retryCounters (snd (onError r s tgt w)) = retryCounters w
  /\ (forall KUBE_BASE, reachable KUBE_BASE w ->
        retryCounters (snd (onError r s tgt w)) !! requestKey (requests w r) = Some 20)
  /\ (headersSent (responses w s) = false ->
      fst (onError r s tgt w) = Normal tt
      /\ receivesGeneric500 s w (snd (onError r s tgt w))).
Proof.
  intros Hc Hm Hge.
  split; [| split; [apply onError_frame | split]].
  - destruct (onError_timers r s tgt w) as [H | (_ & _ & _ & H)]; [exact H | lia].
  - intros KUBE_BASE Hr. destruct (onError_frame r s tgt w) as (_ & -> & _).
    destruct (reachable_Inv KUBE_BASE w Hr) as [Hl _].
    destruct (retryCounters w !! requestKey (requests w r)) as [v|] eqn:E; cbn in Hge; [| lia].
    specialize (Hl _ _ E). cbn in Hl. f_equal. lia.
  - intros Hh. destruct (onError_writes_500 r s tgt w Hc Hh) as (H1 & H2 & H3).
    split; [exact H1 | split; [exact H2 | exact H3]].
Qed.

Lemma attempt_reachable (i : nat) (w w' : World) :
  reachable Sample.KUBE_BASE w -> Scenario.attempt i w = Some w' ->
  reachable Sample.KUBE_BASE w'.
Proof.
  unfold Scenario.attempt. intros Hr H.
  apply bind_Some in H as (w1 & E1 & H).
  apply bind_Some in H as (w2 & E2 & H).
  eapply reachable_step; [| exact H].
  eapply reachable_step; [| exact E2].
  eapply reachable_step; [exact Hr | exact E1].
Qed.

Lemma attempts_reachable (n i : nat) (w w' : World) :
  reachable Sample.KUBE_BASE w -> Scenario.attempts n i w = Some w' ->
  reachable Sample.KUBE_BASE w'.
Proof.
  revert i w. induction n as [|n IH]; intros i w Hr H.
  - injection H as <-. exact Hr.
  - change (Scenario.attempts (S n) i w)
      with (Scenario.attempt i w ≫= Scenario.attempts n (S i)) in H.
    apply bind_Some in H as (w1 & E & H).
    eapply IH; [| exact H]. eapply attempt_reachable; eassumption.
Qed.

Lemma exhausting_exhausted : Scenario.exhausting = Some Scenario.exhausted.
Proof. vm_compute. reflexivity. Qed.

(** The event loop does reach a world whose ledger holds 20 for the key of
    a request in flight. *)
Lemma exhausted_reachable : reachable Sample.KUBE_BASE Scenario.exhausted.
Proof.
  pose proof exhausting_exhausted as H. unfold Scenario.exhausting in H.
  apply bind_Some in H as (w & E & H).
  eapply reachable_step; [| exact H].
  eapply attempts_reachable; [| exact E].
  apply reachable_initial. repeat split.
Qed.

Lemma onError_retries_exhausted_witness :
  closed Scenario.exhausted = false
  /\ headersSent (responses Scenario.exhausted 20%nat) = false
  /\ timers (snd (onError 20%nat 20%nat (Some Sample.backend) Scenario.exhausted)) = []
  /\ receivesGeneric500 20%nat Scenario.exhausted
       (snd (onError 20%nat 20%nat (Some Sample.backend) Scenario.exhausted))
  /\ retryCounters (snd (onError 20%nat 20%nat (Some Sample.backend) Scenario.exhausted))
       !! "c1.localhost:9000/api/v1/pods?watch=1" = Some 20
  /\ receivesGeneric500 0%nat Sample3.usedUp
       (snd (onError 0%nat 0%nat (Some Sample.backend) Sample3.usedUp)).
Proof.
  split; [vm_compute; reflexivity |]. split; [vm_compute; reflexivity |].
  destruct (onError_retries_exhausted 20%nat 20%nat (Some Sample.backend) Scenario.exhausted)
    as (H1 & _ & H3 & H4).
  - vm_compute. reflexivity.
  - vm_compute. reflexivity.
  - vm_compute. discriminate.
  - destruct (onError_retries_exhausted 0%nat 0%nat (Some Sample.backend) Sample3.usedUp)
      as (_ & _ & _ & H5).
    + reflexivity.
    + reflexivity.
    + change (20 <= 20). lia.
    + split; [exact H1 |].
      split; [apply H4; vm_compute; reflexivity |].
      split; [exact (H3 Sample.KUBE_BASE exhausted_reachable) |].
      apply H5. reflexivity.
Defined.

(** C2 as stated fails twice. On a closed proxy the GET failure with a
    count of 20 schedules nothing and nothing is written on the response.
    On an open proxy, when the head of the response is already sent,
    [writeHead] throws: the response is not ended and holds no generic
    500. *)
Lemma no_500_when_closed_or_sent :
  (method (requests (Sample.serving true {[Sample.podsKey := 20]} Sample.failedPods) 0%nat)
     = "GET"
   /\ retryCounters (Sample.serving true {[Sample.podsKey := 20]} Sample.failedPods)
        !! requestKey Sample.failedPods = Some 20
   /\ calls (responses (snd (onError 0%nat 0%nat (Some Sample.backend)
                               (Sample.serving true {[Sample.podsKey := 20]} Sample.failedPods)))
                       0%nat) = []
   /\ ~ receivesGeneric500 0%nat
          (Sample.serving true {[Sample.podsKey := 20]} Sample.failedPods)
          (snd (onError 0%nat 0%nat (Some Sample.backend)
                  (Sample.serving true {[Sample.podsKey := 20]} Sample.failedPods))))
  /\ (closed Sample3.started = false
      /\ method (requests Sample3.started 0%nat) = "GET"
      /\ retryCounters Sample3.started !! requestKey Sample.failedPods = Some 20
      /\ fst (onError 0%nat 0%nat (Some Sample.backend) Sample3.started) = Rejection
      /\ calls (responses (snd (onError 0%nat 0%nat (Some Sample.backend) Sample3.started))
                          0%nat) = [WriteHead 502 []; WriteHead 500 text_plain]
      /\ ~ receivesGeneric500 0%nat Sample3.started
             (snd (onError 0%nat 0%nat (Some Sample.backend) Sample3.started))).
Proof.
  split.
  - split; [reflexivity |]. split; [reflexivity |]. split; [reflexivity |].
    intros [H _]. discriminate H.
  - split; [reflexivity |]. split; [reflexivity |]. split; [reflexivity |].
    split; [reflexivity |]. split; [reflexivity |].
    intros [H _]. discriminate H.
Qed.

(** ** Requests that are not GET *)

Lemma onProxyRes_non_GET (env : Collaborators) (code : Z) (r s : ref) (w : World) :
  method (requests w r) <> "GET" -> quiet w (snd (onProxyRes env code r s w)).
Proof.
  intros Hm. apply String.eqb_neq in Hm. unfold onProxyRes.
  change ((getReq r ≫= ?k) w) with (k (requests w r) w). cbv beta zeta.
  rewrite Hm. cbn [negb].
  assert (Hw : forall msg, Quiet (writeHead s code text_plain;; end_ s (Some msg)))
    by (intros msg; auto with quiet).
  destruct (code =? 502); [| apply quiet_refl].
  destruct (getClusterForRequest env (requests w r)) as [c|]; [| apply quiet_refl].
  destruct (JS.truthy_str (proxyServerError env c)); [apply Hw | apply quiet_refl].
Qed.

Lemma onError_non_GET (r s : ref) (tgt : option ServerOptions) (w : World) :
  method (requests w r) <> "GET" -> quiet w (snd (onError r s tgt w)).
Proof.
  intros Hm. apply String.eqb_neq in Hm.
  destruct (closed w) eqn:Hc; [rewrite (onError_closed r s tgt w Hc); apply quiet_refl |].
  destruct (onError_frame r s tgt w) as (Hcl & Hl & Hr).
  destruct (onError_open r s tgt w Hc) as (w1 & _ & Ht & Htr & Heq).
  cbv zeta in Ht, Htr. rewrite Hm in Ht, Htr.
  assert (Ht1 : timers w1 = timers w) by (destruct tgt; exact Ht).
  assert (Htr1 : trace w1 = trace w) by (destruct tgt; exact Htr).
  destruct (answer500_frame s w1) as (_ & _ & _ & Ht' & Htr').
  split; [exact Hcl |]. split; [exact Hl |].
  split; [rewrite Heq, Ht'; exact Ht1 |].
  split; [intros r'; now rewrite Hr |].
  exists []. split; [rewrite Heq, Htr', Htr1; now rewrite app_nil_r | constructor].
Qed.

Lemma quiet_emitted (w w' : World) :
  quiet w w' -> Forall (fun e => isCountersEvent e = false) (emitted w w').
Proof. intros (_ & _ & _ & _ & evs & Htr & Hev). now rewrite (emitted_app w w' evs Htr). Qed.

(** C5. In every world the event loop can reach, a turn of the loop whose
    request is not a GET makes no call on the ledger (no [has], [get],
    [set] nor [delete]), leaves the ledger as it is and schedules no
    callback; in particular no pending callback ever belongs to such a
    request. *)
Theorem non_GET_never_touches_ledger (KUBE_BASE : string) (a : Action) (w w' : World)
    (req : IncomingMessage) :
  reachable KUBE_BASE w ->
  perform KUBE_BASE a w = Some w' ->
  subject a w = Some req ->
  method req <> "GET" ->
  retryCounters w' = retryCounters w
  /\ timers w' = timers w
  /\ Forall (fun e => isCountersEvent e = false) (emitted w w').
Proof.
  intros Hr Hp Hs Hm.
  assert (Hq : quiet w w' -> retryCounters w' = retryCounters w /\ timers w' = timers w
                             /\ Forall (fun e => isCountersEvent e = false) (emitted w w')).
  { intros Hq. pose proof (quiet_emitted w w' Hq) as He.
    destruct Hq as (_ & Hk & Ht & _). auto. }
  destruct a as [env r s q res | env code r s | r s tgt | env i |];
    unfold perform in Hp; unfold subject in Hs.
  - destruct (fresh r s w); [| discriminate]. apply (inj Some) in Hp; subst w'.
    destruct (Quiet_handleRequest KUBE_BASE env r s (install r s q res w))
      as (_ & Hk & Ht & _ & evs & Htr & Hev).
    split; [exact Hk |]. split; [exact Ht |].
    now rewrite (emitted_app w _ evs Htr).
  - apply (inj Some) in Hp; subst w'. apply (inj Some) in Hs; subst req.
    apply Hq. now apply onProxyRes_non_GET.
  - apply (inj Some) in Hp; subst w'. apply (inj Some) in Hs; subst req.
    apply Hq. now apply onError_non_GET.
  - destruct (timers w !! i) as [[d cb]|] eqn:Ei; [| discriminate].
    apply (inj Some) in Hs; subst req. exfalso. apply Hm.
    destruct (reachable_Inv KUBE_BASE w Hr) as [_ Ht].
    rewrite Forall_forall in Ht.
    apply (Ht (d, cb)), list_elem_of_In. eapply list_elem_of_lookup_2, Ei.
  - discriminate Hs.
Qed.

Lemma non_GET_never_touches_ledger_witness :
  method Sample.postPods <> "GET"
  /\ retryCounters (snd (onError 0%nat 0%nat (Some Sample.backend)
                           (Sample.serving false ∅ Sample.postPods))) = ∅
  /\ timers (snd (onError 0%nat 0%nat (Some Sample.backend)
                    (Sample.serving false ∅ Sample.postPods))) = [].
Proof.
  assert (Hm : method Sample.postPods <> "GET") by discriminate.
  split; [exact Hm |].
  destruct (non_GET_never_touches_ledger Sample.KUBE_BASE
              (BackendFailure 0%nat 0%nat (Some Sample.backend))
              (Sample.serving false ∅ Sample.postPods)
              (snd (onError 0%nat 0%nat (Some Sample.backend)
                      (Sample.serving false ∅ Sample.postPods)))
              Sample.postPods) as (H1 & H2 & _).
  - apply reachable_initial. repeat split.
  - reflexivity.
  - reflexivity.
  - exact Hm.
  - split; [exact H1 | exact H2].
Defined.

(** ** A retry re-dispatches the rewritten request *)

(** C10 (as amended). For a request whose url starts with the API prefix
    and whose url without that prefix does not, the first target resolution
    asks the context handler and leaves the request rewritten; a second
    resolution on the same object yields no target and asks nothing. So
    the callback of a scheduled retry, which dispatches that same object,
    never asks for a backend target nor passes the request to the
    transport, and whenever its cluster lookup succeeds and the readiness
    check completes it hands the request to the router. *)
Theorem getProxyTarget_not_idempotent (KUBE_BASE : string) (env : Collaborators)
    (r : ref) (c : Cluster) (w : World) :
  JS.startsWith (url (requests w r)) KUBE_BASE = true ->
  JS.startsWith (JS.skip (String.length KUBE_BASE) (url (requests w r))) KUBE_BASE = false ->
  targetResolved (emitted w (snd (getProxyTarget KUBE_BASE env r c w)))
  /\ (forall env' c' w2,
        requests w2 r = requests (snd (getProxyTarget KUBE_BASE env r c w)) r ->
        getProxyTarget KUBE_BASE env' r c' w2 = (Normal None, w2))
  /\ (forall env' cb w2,
        retryReq cb = r ->
        requests w2 r = requests (snd (getProxyTarget KUBE_BASE env r c w)) r ->
        ~ targetResolved (emitted w2 (snd (retryCallback KUBE_BASE env' cb w2)))
        /\ ~ forwardedToBackend r (retryRes cb)
               (emitted w2 (snd (retryCallback KUBE_BASE env' cb w2)))
        /\ forall c', getClusterForRequest env' (requests w2 r) = Some c' ->
                      ensureServer env' c' = Resolved tt ->
                      emitted w2 (snd (retryCallback KUBE_BASE env' cb w2)) =
                      [CountersSet (retryCounterKey cb) (retryCount cb + 1);
                       EnsureServer c'; RouterRoute c' r (retryRes cb)]).
Proof.
  intros H1 H2.
  destruct (getProxyTarget_api_after KUBE_BASE env r c w H1) as (Hev & Hu).
  assert (Hurl : forall w2,
             requests w2 r = requests (snd (getProxyTarget KUBE_BASE env r c w)) r ->
             JS.startsWith (url (requests w2 r)) KUBE_BASE = false).
  { intros w2 ->. now rewrite Hu. }
  split; [rewrite Hev; eexists c, _; apply list_elem_of_here |].
  split; [intros env' c' w2 Hw2; now apply getProxyTarget_other, Hurl |].
  intros env' cb w2 Hcb Hw2. specialize (Hurl w2 Hw2).
  assert (Hem : emitted w2 (snd (retryCallback KUBE_BASE env' cb w2)) =
                CountersSet (retryCounterKey cb) (retryCount cb + 1) ::
                match getClusterForRequest env' (requests w2 r) with
                | None => []
                | Some c' => EnsureServer c' ::
                             match ensureServer env' c' with
                             | Failed => []
                             | Resolved _ => [RouterRoute c' r (retryRes cb)]
                             end
                end).
  { rewrite retryCallback_emitted, Hcb, handleRequest_emitted.
    change (requests (snd (countersSet _ _ w2)) r) with (requests w2 r).
    now rewrite Hurl. }
  rewrite Hem. unfold targetResolved, forwardedToBackend.
  destruct (getClusterForRequest env' (requests w2 r)) as [c0|].
  - destruct (ensureServer env' c0) as [[]|] eqn:Ee.
    + split; [intros (c' & b' & Hb); absurd_elem Hb |].
      split; [intros [t Ht]; absurd_elem Ht |].
      intros c' [= <-] _. reflexivity.
    + split; [intros (c' & b' & Hb); absurd_elem Hb |].
      split; [intros [t Ht]; absurd_elem Ht |].
      intros c' [= <-] Hr. congruence.
  - split; [intros (c' & b' & Hb); absurd_elem Hb |].
    split; [intros [t Ht]; absurd_elem Ht |].
    intros c' [=].
Qed.

Example forwarded_trace :
  trace Scenario.forwarded =
  [EnsureServer 7%nat; GetApiTarget 7%nat true; ProxyWeb 0%nat 0%nat Sample.backend].
Proof. reflexivity. Qed.

Example failed_timers : timers Scenario.failed = [(0, Scenario.retry)].
Proof. reflexivity. Qed.

Lemma getProxyTarget_not_idempotent_witness :
  JS.startsWith (url (requests Sample.arrival 0%nat)) Sample.KUBE_BASE = true
  /\ getProxyTarget Sample.KUBE_BASE Sample.env 0%nat 7%nat Scenario.failed =
     (Normal None, Scenario.failed)
  /\ emitted Scenario.failed
             (snd (retryCallback Sample.KUBE_BASE Sample.env Scenario.retry Scenario.failed)) =
     [CountersSet "c1.localhost:9000/api/v1/pods?watch=1" 1;
      EnsureServer 7%nat; RouterRoute 7%nat 0%nat 0%nat].
Proof.
  split; [reflexivity |].
  destruct (getProxyTarget_not_idempotent Sample.KUBE_BASE Sample.env 0%nat 7%nat
              Sample.arrival eq_refl eq_refl) as (_ & H2 & H3).
  split.
  - apply H2. reflexivity.
  - destruct (H3 Sample.env Scenario.retry Scenario.failed eq_refl eq_refl) as (_ & _ & H4).
    exact (H4 7%nat eq_refl eq_refl).
Defined.

(** C10 as stated fails in its last part: when the registry has no cluster
    for the retried request, the retry answers 503 and the request is not
    handed to the router; nor is it when the readiness check fails. *)
Lemma retry_of_unknown_cluster_not_routed :
  JS.startsWith (url (requests Sample.arrival 0%nat)) Sample.KUBE_BASE = true
  /\ JS.startsWith (JS.skip (String.length Sample.KUBE_BASE) (url (requests Sample.arrival 0%nat)))
                   Sample.KUBE_BASE = false
  /\ timers Scenario.failed = [(0, Scenario.retry)]
  /\ ~ handedToRouter 0%nat 0%nat
         (emitted Scenario.failed
            (snd (retryCallback Sample.KUBE_BASE Sample.nobody Scenario.retry Scenario.failed)))
  /\ statusCode (responses (snd (retryCallback Sample.KUBE_BASE Sample.nobody Scenario.retry
                                   Scenario.failed)) 0%nat) = Some 503
  /\ ~ handedToRouter 0%nat 0%nat
         (emitted Scenario.failed
            (snd (retryCallback Sample.KUBE_BASE Sample.unready Scenario.retry Scenario.failed))).
Proof.
  split; [reflexivity |]. split; [reflexivity |]. split; [reflexivity |].
  split; [| split; [reflexivity |]].
  - intros [c Hc].
    change (RouterRoute c 0%nat 0%nat ∈
              [CountersSet "c1.localhost:9000/api/v1/pods?watch=1" 1]) in Hc.
    absurd_elem Hc.
  - intros [c Hc].
    change (RouterRoute c 0%nat 0%nat ∈
              [CountersSet "c1.localhost:9000/api/v1/pods?watch=1" 1; EnsureServer 7%nat]) in Hc.
    absurd_elem Hc.
Qed.

(** ** Allowed resources *)

Lemma includes_elem_of (allowedResources : list string) (resource : string) :
  Resources.includes allowedResources resource = true <-> resource ∈ allowedResources.
Proof.
  induction allowedResources as [|x rest IH]; cbn.
  - split; [discriminate | intros H; now apply elem_of_nil in H].
  - destruct (String.eqb x resource) eqn:E.
    + apply String.eqb_eq in E. subst x. split; [intros _; apply list_elem_of_here | reflexivity].
    + apply String.eqb_neq in E. rewrite IH, elem_of_cons. split; [now right |].
      intros [H | H]; [congruence | exact H].
Qed.

Lemma forOf_true (allowedResources resources : list string) :
  Resources.forOf allowedResources resources = true <->
  forall x, x ∈ resources -> x ∈ allowedResources.
Proof.
  induction resources as [|y rest IH]; cbn.
  - split; [intros _ x H; now apply elem_of_nil in H | reflexivity].
  - destruct (Resources.includes allowedResources y) eqn:E; cbn.
    + apply includes_elem_of in E. rewrite IH. split.
      * intros H x Hx. apply elem_of_cons in Hx as [-> | Hx]; [exact E | now apply H].
      * intros H x Hx. apply H. now apply list_elem_of_further.
    + split; [discriminate |]. intros H.
      assert (Hy : y ∈ allowedResources) by apply H, list_elem_of_here.
      apply includes_elem_of in Hy. congruence.
Qed.

(** X1. [isAllowedResource] answers true exactly when every requested
    resource is among the cluster's allowed resources; for a single string
    that is membership of that string. *)
Theorem isAllowedResource_true_iff (allowedResources : list string) :
  (forall resources,
     Resources.isAllowedResource allowedResources (Resources.Many resources) = true <->
     forall x, x ∈ resources -> x ∈ allowedResources)
  /\ (forall resource,
        Resources.isAllowedResource allowedResources (Resources.One resource) = true <->
        resource ∈ allowedResources).
Proof.
  split.
  - intros resources. apply forOf_true.
  - intros resource. unfold Resources.isAllowedResource. rewrite forOf_true. split.
    + intros H. apply H, list_elem_of_here.
    + intros H x Hx. apply list_elem_of_singleton in Hx. now subst x.
Qed.

Lemma isAllowedResource_true_iff_witness :
  Resources.isAllowedResource ["pods"; "nodes"; "events"] (Resources.Many ["nodes"; "pods"]) = true
  /\ Resources.isAllowedResource ["pods"; "nodes"; "events"] (Resources.One "secrets") = false.
Proof.
  destruct (isAllowedResource_true_iff ["pods"; "nodes"; "events"]) as [H1 H2].
  split.
  - apply H1. intros x Hx.
    repeat (apply elem_of_cons in Hx as [-> | Hx]; [repeat constructor |]).
    now apply elem_of_nil in Hx.
  - destruct (Resources.isAllowedResource ["pods"; "nodes"; "events"] (Resources.One "secrets"))
      eqn:E; [| reflexivity].
    apply H2 in E. exfalso.
    repeat (apply elem_of_cons in E as [E | E]; [discriminate E |]).
    now apply elem_of_nil in E.
Defined.

(** X2. A request for two lists of resources together is allowed exactly
    when each list is; a request for no resource at all is allowed whatever
    the cluster allows. *)
Theorem isAllowedResource_app (allowedResources l1 l2 : list string) :
  Resources.isAllowedResource allowedResources (Resources.Many (l1 ++ l2)) =
    Resources.isAllowedResource allowedResources (Resources.Many l1)
    && Resources.isAllowedResource allowedResources (Resources.Many l2)
  /\ Resources.isAllowedResource allowedResources (Resources.Many []) = true.
Proof.
  split; [| reflexivity]. cbn. induction l1 as [|y l1 IH]; cbn; [reflexivity |].
  now destruct (Resources.includes allowedResources y).
Qed.

(** X3. Allowing more never revokes: what is allowed under a list of
    allowed resources stays allowed under any list that contains it, and a
    request that is allowed stays allowed when resources are dropped from
    it. *)
Theorem isAllowedResource_monotone (allowed allowed' resources resources' : list string) :
  allowed ⊆ allowed' ->
  resources' ⊆ resources ->
  Resources.isAllowedResource allowed (Resources.Many resources) = true ->
  Resources.isAllowedResource allowed' (Resources.Many resources') = true.
Proof.
  unfold Resources.isAllowedResource. rewrite !forOf_true.
  intros Ha Hr H x Hx. apply Ha, H, Hr, Hx.
Qed.

Lemma isAllowedResource_monotone_witness :
  Resources.isAllowedResource ["pods"; "nodes"; "events"] (Resources.Many ["pods"]) = true.
Proof.
  apply (isAllowedResource_monotone ["pods"; "nodes"] ["pods"; "nodes"; "events"]
           ["nodes"; "pods"] ["pods"]).
  - intros x Hx. apply elem_of_cons in Hx as [-> | Hx]; [repeat constructor |].
    apply elem_of_cons in Hx as [-> | Hx]; [repeat constructor |].
    now apply elem_of_nil in Hx.
  - intros x Hx. apply list_elem_of_singleton in Hx. subst x. repeat constructor.
  - reflexivity.
Defined.

(** ** Dispatch for a known cluster *)

(** [handleRequest] past the cluster guard, by cases on what the readiness
    check and the target resolution give. *)
Lemma handleRequest_known (KUBE_BASE : string) (env : Collaborators) (r s : ref) (w : World)
    (c : Cluster) :
  getClusterForRequest env (requests w r) = Some c ->
  handleRequest KUBE_BASE env r s w =
  match ensureServer env c with
  | Failed => (Rejection, snd (emit (EnsureServer c) w))
  | Resolved _ =>
      match getProxyTarget KUBE_BASE env r c (snd (emit (EnsureServer c) w)) with
      | (Normal (Some t), w2) => emit (ProxyWeb r s t) w2
      | (Normal None, w2) => emit (RouterRoute c r s) w2
      | (Rejection, w2) => (Rejection, w2)
      end
  end.
Proof.
  intros H. unfold handleRequest.
  change ((getReq r ≫= ?k) w) with (k (requests w r) w). cbv beta. rewrite H.
  unfold contextHandler_ensureServer. run.
  destruct (ensureServer env c) as [[]|]; cbn; [| reflexivity].
  match goal with |- context [getProxyTarget _ _ _ _ ?w0] =>
    destruct (getProxyTarget KUBE_BASE env r c w0) as [[[t|]|] w2] end; reflexivity.
Qed.

(** Target resolution on an API url, in full: the completion is that of
    the context handler, and the world is the rewritten one with the call
    recorded. *)
Lemma getProxyTarget_api_outcome (KUBE_BASE : string) (env : Collaborators) (r : ref)
    (c : Cluster) (w : World) :
  JS.startsWith (url (requests w r)) KUBE_BASE = true ->
  let b := JS.includes (JS.skip (String.length KUBE_BASE) (url (requests w r))) "watch=" in
  exists w1,
    rewritten KUBE_BASE r w w1
    /\ getProxyTarget KUBE_BASE env r c w =
       (match getApiTarget env c b with
        | Resolved t => Normal t
        | Failed => Rejection
        end,
        mkWorld (closed w1) (retryCounters w1) (requests w1) (responses w1) (timers w1)
                (trace w1 ++ [GetApiTarget c b])).
Proof.
  intros H b. destruct (getProxyTarget_api KUBE_BASE env r c w H) as (w1 & Hw1 & ->).
  exists w1. split; [exact Hw1 |]. unfold contextHandler_getApiTarget. run.
  fold b. now destruct (getApiTarget env c b).
Qed.

Lemma handleRequest_responses (KUBE_BASE : string) (env : Collaborators) (r s : ref)
    (w : World) (c : Cluster) :
  getClusterForRequest env (requests w r) = Some c ->
  responses (snd (handleRequest KUBE_BASE env r s w)) = responses w.
Proof.
  intros H. rewrite (handleRequest_known KUBE_BASE env r s w c H).
  destruct (ensureServer env c) as [[]|]; [| reflexivity].
  set (w0 := snd (emit (EnsureServer c) w)).
  assert (Hp : responses (snd (getProxyTarget KUBE_BASE env r c w0)) = responses w).
  { destruct (JS.startsWith (url (requests w0 r)) KUBE_BASE) eqn:E.
    - destruct (getProxyTarget_api_outcome KUBE_BASE env r c w0 E) as (w1 & Hw1 & ->).
      destruct Hw1 as (_ & _ & _ & _ & Hres & _). cbn. now rewrite Hres.
    - now rewrite (getProxyTarget_other KUBE_BASE env r c w0 E). }
  destruct (getProxyTarget KUBE_BASE env r c w0) as [[[t|]|] w2]; exact Hp.
Qed.

(** X7. When a cluster is found for the request, dispatch makes no call on
    the response and does not set its status, whatever the collaborators
    answer: the 503 of the unknown-cluster case is the only thing
    [handleRequest] itself ever writes. *)
Theorem handleRequest_leaves_response (KUBE_BASE : string) (env : Collaborators) (r s : ref)
    (w : World) (c : Cluster) :
  getClusterForRequest env (requests w r) = Some c ->
  responses (snd (handleRequest KUBE_BASE env r s w)) = responses w.
Proof. apply handleRequest_responses. Qed.

Lemma handleRequest_leaves_response_witness :
  responses (snd (handleRequest Sample.KUBE_BASE Sample.env 0%nat 0%nat Sample.arrival)) =
  responses Sample.arrival.
Proof.
  exact (handleRequest_leaves_response Sample.KUBE_BASE Sample.env 0%nat 0%nat Sample.arrival
           7%nat eq_refl).
Defined.

(** X4. An API request of a known cluster whose readiness check completes
    and whose context handler names a target is passed to the transport
    with that target, after the readiness check and the target resolution
    and as the last call; by then the request has lost its authorization
    header and the prefix of its url, and the ledger and the timers are as
    they were. *)
Theorem handleRequest_forwards (KUBE_BASE : string) (env : Collaborators) (r s : ref)
    (w : World) (c : Cluster) (t : ServerOptions) :
  let url' := JS.skip (String.length KUBE_BASE) (url (requests w r)) in
  getClusterForRequest env (requests w r) = Some c ->
  ensureServer env c = Resolved tt ->
  JS.startsWith (url (requests w r)) KUBE_BASE = true ->
  getApiTarget env c (JS.includes url' "watch=") = Resolved (Some t) ->
  fst (handleRequest KUBE_BASE env r s w) = Normal tt
  /\ emitted w (snd (handleRequest KUBE_BASE env r s w)) =
     [EnsureServer c; GetApiTarget c (JS.includes url' "watch="); ProxyWeb r s t]
  /\ requests (snd (handleRequest KUBE_BASE env r s w)) r =
     mkRequest (method (requests w r)) (delete "authorization" (headers (requests w r))) url'
  /\ retryCounters (snd (handleRequest KUBE_BASE env r s w)) = retryCounters w
  /\ timers (snd (handleRequest KUBE_BASE env r s w)) = timers w.
Proof.
  intros url' Hc He Hs Ht.
  split; [| split; [| split]].
  - rewrite (handleRequest_known KUBE_BASE env r s w c Hc), He.
    destruct (getProxyTarget_api_outcome KUBE_BASE env r c (snd (emit (EnsureServer c) w)) Hs)
      as (w1 & _ & ->).
    change (requests (snd (emit (EnsureServer c) w)) r) with (requests w r).
    fold url'. rewrite Ht. reflexivity.
  - rewrite handleRequest_emitted, Hc, He, Hs. cbv zeta. fold url'. now rewrite Ht.
  - rewrite (handleRequest_known KUBE_BASE env r s w c Hc), He.
    destruct (getProxyTarget_api_outcome KUBE_BASE env r c (snd (emit (EnsureServer c) w)) Hs)
      as (w1 & Hw1 & ->).
    change (requests (snd (emit (EnsureServer c) w)) r) with (requests w r).
    fold url'. rewrite Ht. cbn. destruct Hw1 as (Hreq & _). exact Hreq.
  - destruct (Quiet_handleRequest KUBE_BASE env r s w) as (_ & Hk & Htm & _). now split.
Qed.

Lemma handleRequest_forwards_witness :
  emitted Sample.arrival
          (snd (handleRequest Sample.KUBE_BASE Sample.env 0%nat 0%nat Sample.arrival)) =
  [EnsureServer 7%nat; GetApiTarget 7%nat true; ProxyWeb 0%nat 0%nat Sample.backend]
  /\ url (requests (snd (handleRequest Sample.KUBE_BASE Sample.env 0%nat 0%nat Sample.arrival))
                   0%nat) = "/api/v1/pods?watch=1".
Proof.
  pose proof (handleRequest_forwards Sample.KUBE_BASE Sample.env 0%nat 0%nat Sample.arrival
                7%nat Sample.backend) as H.
  cbv zeta in H. destruct H as (_ & H1 & H2 & _); try reflexivity.
  split; [exact H1 |]. rewrite H2. reflexivity.
Defined.

(** Dispatch of an API request whose readiness check completed: the
    completion is that of the context handler, and the request is left
    rewritten. *)
Lemma handleRequest_api (KUBE_BASE : string) (env : Collaborators) (r s : ref)
    (w : World) (c : Cluster) :
  let url' := JS.skip (String.length KUBE_BASE) (url (requests w r)) in
  getClusterForRequest env (requests w r) = Some c ->
  ensureServer env c = Resolved tt ->
  JS.startsWith (url (requests w r)) KUBE_BASE = true ->
  fst (handleRequest KUBE_BASE env r s w) =
    match getApiTarget env c (JS.includes url' "watch=") with
    | Resolved _ => Normal tt
    | Failed => Rejection
    end
  /\ requests (snd (handleRequest KUBE_BASE env r s w)) r =
     mkRequest (method (requests w r)) (delete "authorization" (headers (requests w r))) url'.
Proof.
  intros url' Hc He Hs.
  rewrite (handleRequest_known KUBE_BASE env r s w c Hc), He.
  destruct (getProxyTarget_api_outcome KUBE_BASE env r c (snd (emit (EnsureServer c) w)) Hs)
    as (w1 & Hw1 & ->).
  change (requests (snd (emit (EnsureServer c) w)) r) with (requests w r).
  fold url'. destruct Hw1 as (Hreq & _).
  change (requests (snd (emit (EnsureServer c) w)) r) with (requests w r) in Hreq.
  destruct (getApiTarget env c (JS.includes url' "watch=")) as [[t|]|]; cbn; now split.
Qed.

(** X5. A failure of a collaborator is not answered. When the readiness
    check rejects, or the context handler rejects on an API request,
    dispatch ends in a rejection: nothing is written on the response, the
    request reaches neither the transport nor the router, and no retry is
    scheduled. In the first case the request is untouched, in the second
    it has already been rewritten. *)
Theorem handleRequest_rejects (KUBE_BASE : string) (env : Collaborators) (r s : ref)
    (w : World) (c : Cluster) :
  let url' := JS.skip (String.length KUBE_BASE) (url (requests w r)) in
  getClusterForRequest env (requests w r) = Some c ->
  (ensureServer env c = Failed
   \/ (ensureServer env c = Resolved tt
       /\ JS.startsWith (url (requests w r)) KUBE_BASE = true
       /\ getApiTarget env c (JS.includes url' "watch=") = Failed)) ->
  fst (handleRequest KUBE_BASE env r s w) = Rejection
  /\ responses (snd (handleRequest KUBE_BASE env r s w)) = responses w
  /\ ~ forwardedToBackend r s (emitted w (snd (handleRequest KUBE_BASE env r s w)))
  /\ ~ handedToRouter r s (emitted w (snd (handleRequest KUBE_BASE env r s w)))
  /\ timers (snd (handleRequest KUBE_BASE env r s w)) = timers w
  /\ (ensureServer env c = Failed ->
      requests (snd (handleRequest KUBE_BASE env r s w)) = requests w)
  /\ (ensureServer env c = Resolved tt ->
      url (requests (snd (handleRequest KUBE_BASE env r s w)) r) = url'
      /\ headers (requests (snd (handleRequest KUBE_BASE env r s w)) r) !! "authorization"
         = None).
Proof.
  intros url' Hc Hf.
  split; [| split; [now apply (handleRequest_responses KUBE_BASE env r s w c) |]].
  { destruct Hf as [Hf | (He & Hs & Ht)].
    - now rewrite (handleRequest_known KUBE_BASE env r s w c Hc), Hf.
    - destruct (handleRequest_api KUBE_BASE env r s w c Hc He Hs) as [-> _].
      fold url'. now rewrite Ht. }
  unfold forwardedToBackend, handedToRouter.
  rewrite handleRequest_emitted, Hc.
  split; [| split; [| split; [apply Quiet_handleRequest | split]]].
  - destruct Hf as [-> | (-> & -> & Ht)]; [intros [t H]; absurd_elem H |].
    cbv zeta. fold url'. rewrite Ht. intros [t H]. absurd_elem H.
  - destruct Hf as [-> | (-> & -> & Ht)]; [intros [t H]; absurd_elem H |].
    cbv zeta. fold url'. rewrite Ht. intros [t H]. absurd_elem H.
  - intros He. now rewrite (handleRequest_known KUBE_BASE env r s w c Hc), He.
  - intros He. destruct Hf as [Hf | (_ & Hs & _)]; [congruence |].
    destruct (handleRequest_api KUBE_BASE env r s w c Hc He Hs) as [_ ->].
    cbn. split; [reflexivity | apply lookup_delete_eq].
Qed.

Lemma handleRequest_rejects_witness :
  fst (handleRequest Sample.KUBE_BASE Sample2.targetless 0%nat 0%nat Sample.arrival) = Rejection
  /\ responses (snd (handleRequest Sample.KUBE_BASE Sample2.targetless 0%nat 0%nat
                       Sample.arrival)) = responses Sample.arrival
  /\ fst (handleRequest Sample.KUBE_BASE Sample.unready 0%nat 0%nat Sample.arrival) = Rejection.
Proof.
  pose proof (handleRequest_rejects Sample.KUBE_BASE Sample2.targetless 0%nat 0%nat
                Sample.arrival 7%nat) as H1.
  pose proof (handleRequest_rejects Sample.KUBE_BASE Sample.unready 0%nat 0%nat
                Sample.arrival 7%nat) as H2.
  cbv zeta in H1, H2.
  destruct H1 as (H1 & H1' & _); [reflexivity | right; repeat split |].
  destruct H2 as (H2 & _); [reflexivity | left; reflexivity |].
  split; [exact H1 | split; [exact H1' | exact H2]].
Defined.

(** X6. When the context handler resolves to a falsy target, an API
    request is handed to the router, and the router sees the request as
    target resolution left it: without the API prefix and without its
    authorization header. *)
Theorem handleRequest_api_without_target (KUBE_BASE : string) (env : Collaborators) (r s : ref)
    (w : World) (c : Cluster) :
  let url' := JS.skip (String.length KUBE_BASE) (url (requests w r)) in
  getClusterForRequest env (requests w r) = Some c ->
  ensureServer env c = Resolved tt ->
  JS.startsWith (url (requests w r)) KUBE_BASE = true ->
  getApiTarget env c (JS.includes url' "watch=") = Resolved None ->
  fst (handleRequest KUBE_BASE env r s w) = Normal tt
  /\ emitted w (snd (handleRequest KUBE_BASE env r s w)) =
     [EnsureServer c; GetApiTarget c (JS.includes url' "watch="); RouterRoute c r s]
  /\ url (requests (snd (handleRequest KUBE_BASE env r s w)) r) = url'
  /\ headers (requests (snd (handleRequest KUBE_BASE env r s w)) r) !! "authorization" = None.
Proof.
  intros url' Hc He Hs Ht.
  destruct (handleRequest_api KUBE_BASE env r s w c Hc He Hs) as [-> ->].
  fold url'. rewrite Ht. split; [reflexivity |].
  split; [| split; [reflexivity | apply lookup_delete_eq]].
  rewrite handleRequest_emitted, Hc, He, Hs. cbv zeta. fold url'. now rewrite Ht.
Qed.

Lemma handleRequest_api_without_target_witness :
  emitted Sample.arrival
          (snd (handleRequest Sample.KUBE_BASE Sample2.falsy 0%nat 0%nat Sample.arrival)) =
  [EnsureServer 7%nat; GetApiTarget 7%nat true; RouterRoute 7%nat 0%nat 0%nat]
  /\ url (requests (snd (handleRequest Sample.KUBE_BASE Sample2.falsy 0%nat 0%nat Sample.arrival))
                   0%nat) = "/api/v1/pods?watch=1".
Proof.
  pose proof (handleRequest_api_without_target Sample.KUBE_BASE Sample2.falsy 0%nat 0%nat
                Sample.arrival 7%nat) as H.
  cbv zeta in H. destruct H as (_ & H1 & H2 & _); try reflexivity.
  split; [exact H1 | exact H2].
Defined.

(** ** When the error hook retries *)

(** The hook's world when a retry is due: one more timer, the 500 on the
    response, everything else as before. *)
Lemma onError_due (r s : ref) (tgt : option ServerOptions) (w : World) :
  retryDue r s tgt w ->
  let key := requestKey (requests w r) in
  let count := JS.or_zero (retryCounters w !! key) in
  timers (snd (onError r s tgt w)) = timers w ++ [(count * 250, mkRetry key count r s)]
  /\ forall s', s' <> s -> responses (snd (onError r s tgt w)) s' = responses w s'.
Proof.
  intros (Hc & [t ->] & Hm & Hs & Hlt) key count. apply Z.ltb_lt in Hlt.
  split; [| intros s' Hne; now apply onError_others].
  destruct (onError_open r s (Some t) w Hc) as (w1 & _ & Ht & _ & ->).
  destruct (answer500_frame s w1) as (_ & _ & _ & -> & _).
  cbv zeta in Ht. rewrite Hm, Hs, Hlt in Ht. exact Ht.
Qed.

Lemma onError_not_due (r s : ref) (tgt : option ServerOptions) (w : World) :
  ~ retryDue r s tgt w -> timers (snd (onError r s tgt w)) = timers w.
Proof.
  intros Hn.
  destruct (onError_timers r s tgt w) as [H | (H & Hc & Hm & Hlt)]; [exact H |].
  destruct (onError_open r s tgt w Hc) as (w1 & _ & Ht & _ & Heq).
  destruct (answer500_frame s w1) as (_ & _ & _ & Ht' & _).
  rewrite Heq, Ht', Ht. cbv zeta.
  destruct tgt as [t|]; [| reflexivity].
  destruct (notStartedOrServerError (statusCode (responses w s))) eqn:Hs;
    [| now rewrite andb_false_r].
  exfalso. apply Hn. repeat split; eauto.
Qed.

(** X8. The error hook schedules a retry exactly when the proxy is open,
    the target is truthy, the method is GET, the response has a falsy
    status or one of at least 500, and the count is below 20; then it adds
    one timer, and in every other case (a falsy target, a response already
    started with a status below 500, another method) the timers are as they
    were. The ledger is never written by the hook itself. *)
Theorem onError_retry_iff (r s : ref) (tgt : option ServerOptions) (w : World) :
  let key := requestKey (requests w r) in
  let count := JS.or_zero (retryCounters w !! key) in
  (retryDue r s tgt w ->
   timers (snd (onError r s tgt w)) = timers w ++ [(count * 250, mkRetry key count r s)])
  /\ (~ retryDue r s tgt w -> timers (snd (onError r s tgt w)) = timers w)
  /\ retryCounters (snd (onError r s tgt w)) = retryCounters w.
Proof.
  intros key count. split; [| split].
  - intros H. apply (onError_due r s tgt w H).
  - apply onError_not_due.
  - apply onError_frame.
Qed.

Lemma onError_retry_iff_witness :
  retryDue 0%nat 0%nat (Some Sample.backend) Sample2.twoClients
  /\ timers (snd (onError 0%nat 0%nat (Some Sample.backend) Sample2.twoClients)) =
     [(750, mkRetry Sample.podsKey 3 0%nat 0%nat)]
  /\ ~ retryDue 0%nat 0%nat None Sample2.twoClients
  /\ timers (snd (onError 0%nat 0%nat None Sample2.twoClients)) = [].
Proof.
  assert (H1 : retryDue 0%nat 0%nat (Some Sample.backend) Sample2.twoClients).
  { split; [reflexivity |]. split; [eexists; reflexivity |]. split; [reflexivity |].
    split; [reflexivity |]. change (3 < 20). lia. }
  assert (H2 : ~ retryDue 0%nat 0%nat None Sample2.twoClients).
  { intros (_ & [t Ht] & _). discriminate Ht. }
  pose proof (onError_retry_iff 0%nat 0%nat (Some Sample.backend) Sample2.twoClients) as Ha.
  pose proof (onError_retry_iff 0%nat 0%nat None Sample2.twoClients) as Hb.
  cbv zeta in Ha, Hb.
  split; [exact H1 |]. split; [exact (proj1 Ha H1) |].
  split; [exact H2 | exact (proj1 (proj2 Hb) H2)].
Defined.

(** X9. Two failures on the same key before either retry has run read the
    same count: both retries are scheduled with the same delay, and once
    both callbacks have run, in either order, the entry is that count plus
    1, not plus 2. *)
Theorem racing_failures_count_once (r1 s1 r2 s2 : ref) (t1 t2 : ServerOptions) (w : World) :
  let key := requestKey (requests w r1) in
  let count := JS.or_zero (retryCounters w !! key) in
  retryDue r1 s1 (Some t1) w ->
  retryDue r2 s2 (Some t2) w ->
  requestKey (requests w r2) = key ->
  s1 <> s2 ->
  timers (snd (onError r2 s2 (Some t2) (snd (onError r1 s1 (Some t1) w)))) =
    timers w ++ [(count * 250, mkRetry key count r1 s1); (count * 250, mkRetry key count r2 s2)]
  /\ forall KUBE_BASE env env' w0,
       retryCounters
         (snd (retryCallback KUBE_BASE env' (mkRetry key count r2 s2)
                 (snd (retryCallback KUBE_BASE env (mkRetry key count r1 s1) w0)))) !! key
         = Some (count + 1)
       /\ retryCounters
            (snd (retryCallback KUBE_BASE env' (mkRetry key count r1 s1)
                    (snd (retryCallback KUBE_BASE env (mkRetry key count r2 s2) w0)))) !! key
            = Some (count + 1).
Proof.
  intros key count H1 H2 Hk Hs. split.
  - destruct (onError_due r1 s1 (Some t1) w H1) as [Ht1 Hr1].
    destruct (onError_frame r1 s1 (Some t1) w) as (Hc & Hl & Hq).
    assert (H2' : retryDue r2 s2 (Some t2) (snd (onError r1 s1 (Some t1) w))).
    { destruct H2 as (A & B & C & D & E). unfold retryDue.
      rewrite Hc, Hl, Hq, (Hr1 s2) by congruence. repeat split; assumption. }
    destruct (onError_due r2 s2 (Some t2) _ H2') as [Ht2 _].
    rewrite Ht2, Ht1, Hl, Hq, Hk. fold key. fold count. now rewrite <- app_assoc.
  - intros KUBE_BASE env env' w0. split.
    + destruct (retryCallback_effect KUBE_BASE env' (mkRetry key count r2 s2)
                  (snd (retryCallback KUBE_BASE env (mkRetry key count r1 s1) w0))) as (-> & _).
      apply lookup_insert_eq.
    + destruct (retryCallback_effect KUBE_BASE env' (mkRetry key count r1 s1)
                  (snd (retryCallback KUBE_BASE env (mkRetry key count r2 s2) w0))) as (-> & _).
      apply lookup_insert_eq.
Qed.

Lemma racing_failures_count_once_witness :
  timers (snd (onError 1%nat 1%nat (Some Sample.backend)
                 (snd (onError 0%nat 0%nat (Some Sample.backend) Sample2.twoClients)))) =
    [(750, mkRetry Sample.podsKey 3 0%nat 0%nat); (750, mkRetry Sample.podsKey 3 1%nat 1%nat)]
  /\ retryCounters
       (snd (retryCallback Sample.KUBE_BASE Sample.env (mkRetry Sample.podsKey 3 1%nat 1%nat)
               (snd (retryCallback Sample.KUBE_BASE Sample.env
                       (mkRetry Sample.podsKey 3 0%nat 0%nat) Sample2.twoClients))))
       !! Sample.podsKey = Some 4.
Proof.
  assert (H : forall r s, retryDue r s (Some Sample.backend) Sample2.twoClients).
  { intros r s. split; [reflexivity |]. split; [eexists; reflexivity |]. split; [reflexivity |].
    split; [reflexivity |]. change (3 < 20). lia. }
  pose proof (racing_failures_count_once 0%nat 0%nat 1%nat 1%nat Sample.backend Sample.backend
                Sample2.twoClients) as Hr.
  cbv zeta in Hr. destruct Hr as [H1 H2]; [apply H | apply H | reflexivity | discriminate |].
  split; [exact H1 |].
  exact (proj1 (H2 Sample.KUBE_BASE Sample.env Sample.env Sample2.twoClients)).
Defined.

(** ** Sequences of turns *)

Lemma performAll_cons (KUBE_BASE : string) (a : Action) (rest : list Action) (w w' : World) :
  performAll KUBE_BASE (a :: rest) w = Some w' <->
  exists w1, perform KUBE_BASE a w = Some w1 /\ performAll KUBE_BASE rest w1 = Some w'.
Proof.
  change (performAll KUBE_BASE (a :: rest) w)
    with (perform KUBE_BASE a w ≫= performAll KUBE_BASE rest).
  apply bind_Some.
Qed.

Lemma performAll_reachable (KUBE_BASE : string) (actions : list Action) (w w' : World) :
  reachable KUBE_BASE w -> performAll KUBE_BASE actions w = Some w' -> reachable KUBE_BASE w'.
Proof.
  revert w. induction actions as [|a rest IH]; intros w Hr H.
  - injection H as <-. exact Hr.
  - apply performAll_cons in H as (w1 & H1 & H). eapply IH; [| exact H].
    eapply reachable_step; eassumption.
Qed.




(** One turn that is not a timer firing. *)
Lemma perform_no_fire (KUBE_BASE : string) (a : Action) (w w' : World) :
  isFire a = false -> perform KUBE_BASE a w = Some w' ->
  retryCounters w' ⊆ retryCounters w.
Proof.
  intros Hf Hp. destruct a as [env r s req res | env code r s | r s tgt | env i |];
    try discriminate Hf; unfold perform in Hp.
  - destruct (fresh r s w); [| discriminate]. apply (inj Some) in Hp; subst w'.
    destruct (Quiet_handleRequest KUBE_BASE env r s (install r s req res w)) as (_ & -> & _).
    reflexivity.
  - apply (inj Some) in Hp; subst w'.
    destruct (onProxyRes_frame env code r s w) as (_ & _ & _ & [-> | ->]);
      [reflexivity | apply delete_subseteq].
  - apply (inj Some) in Hp; subst w'.
    destruct (onError_frame r s tgt w) as (_ & -> & _). reflexivity.
  - apply (inj Some) in Hp; subst w'. reflexivity.
Qed.

(** X11. Entries of the ledger come from fired retries only. Over any
    sequence of turns in which no timer fires (requests arriving, backend
    responses, transport failures, close), every entry of the ledger at the
    end was there, with the same count, at the start; from a fresh proxy
    the ledger stays empty. *)
Theorem ledger_grows_by_retries_only (KUBE_BASE : string) (actions : list Action)
    (w w' : World) :
  forallb (fun a => negb (isFire a)) actions = true ->
  performAll KUBE_BASE actions w = Some w' ->
  retryCounters w' ⊆ retryCounters w
  /\ (initial w -> retryCounters w' = ∅).
Proof.
  intros Hf H.
  assert (Hsub : retryCounters w' ⊆ retryCounters w).
  { revert w H. induction actions as [|a rest IH]; intros w H.
    - injection H as <-. reflexivity.
    - cbn in Hf. apply andb_prop in Hf as [Ha Hf]. apply negb_true_iff in Ha.
      apply performAll_cons in H as (w1 & H1 & H).
      transitivity (retryCounters w1); [now apply IH | now apply (perform_no_fire KUBE_BASE a)]. }
  split; [exact Hsub |]. intros (_ & Hk & _). rewrite Hk in Hsub.
  apply map_empty. intros k. destruct (retryCounters w' !! k) as [v|] eqn:E; [| reflexivity].
  eapply lookup_weaken in E; [| exact Hsub]. now rewrite lookup_empty in E.
Qed.

Lemma ledger_grows_by_retries_only_witness :
  performAll Sample.KUBE_BASE
    [Inbound Sample.env 0%nat 0%nat Sample.watchPods (mkResponse None []);
     BackendFailure 0%nat 0%nat (Some Sample.backend);
     BackendResponse Sample.env 200 0%nat 0%nat]
    Sample.arrival <> None
  /\ forall w', performAll Sample.KUBE_BASE
                  [Inbound Sample.env 0%nat 0%nat Sample.watchPods (mkResponse None []);
                   BackendFailure 0%nat 0%nat (Some Sample.backend);
                   BackendResponse Sample.env 200 0%nat 0%nat]
                  Sample.arrival = Some w' ->
                retryCounters w' = ∅.
Proof.
  split; [discriminate |]. intros w' H.
  destruct (ledger_grows_by_retries_only Sample.KUBE_BASE
              [Inbound Sample.env 0%nat 0%nat Sample.watchPods (mkResponse None []);
               BackendFailure 0%nat 0%nat (Some Sample.backend);
               BackendResponse Sample.env 200 0%nat 0%nat]
              Sample.arrival w' eq_refl H)
    as [_ H2].
  apply H2. repeat split.
Defined.

(** ** Bounds kept by the event loop *)

(** X12. In every world the event loop reaches from a fresh proxy, each
    entry of the ledger is between 1 and 20, and each pending retry waits a
    multiple of 250 ms between 0 and 4750 ms, for a request that is a
    GET. *)
Theorem reachable_bounds (KUBE_BASE : string) (w : World) :
  reachable KUBE_BASE w ->
  (forall k v, retryCounters w !! k = Some v -> 1 <= v <= 20)
  /\ (forall d cb, (d, cb) ∈ timers w ->
        0 <= d <= 4750
        /\ d = retryCount cb * 250
        /\ method (requests w (retryReq cb)) = "GET").
Proof.
  intros Hr. destruct (reachable_Inv KUBE_BASE w Hr) as [Hl Ht]. split.
  - intros k v Hk. exact (Hl k v Hk).
  - intros d cb Hin. rewrite Forall_forall in Ht.
    apply list_elem_of_In in Hin. destruct (Ht (d, cb) Hin) as (Hc & Hd & Hm).
    cbn in Hc, Hd, Hm. repeat split; try assumption; lia.
Qed.

Lemma reachable_bounds_witness :
  retryCounters Scenario.exhausted !! "c1.localhost:9000/api/v1/pods?watch=1" = Some 20
  /\ forall k v, retryCounters Scenario.exhausted !! k = Some v -> 1 <= v <= 20.
Proof.
  split; [vm_compute; reflexivity |].
  exact (proj1 (reachable_bounds Sample.KUBE_BASE Scenario.exhausted exhausted_reachable)).
Defined.

(** ** A retry followed by a response *)

Lemma handleRequest_requests_non_api (KUBE_BASE : string) (env : Collaborators) (r s : ref)
    (w : World) :
  JS.startsWith (url (requests w r)) KUBE_BASE = false ->
  requests (snd (handleRequest KUBE_BASE env r s w)) = requests w.
Proof.
  intros Hs. destruct (getClusterForRequest env (requests w r)) as [c|] eqn:Hc.
  - rewrite (handleRequest_known KUBE_BASE env r s w c Hc).
    destruct (ensureServer env c) as [[]|]; [| reflexivity].
    now rewrite (getProxyTarget_other KUBE_BASE env r c (snd (emit (EnsureServer c) w)) Hs).
  - unfold handleRequest. run. now rewrite Hc.
Qed.

(** X13. A retry and then a delivered response bring the ledger back. When
    the callback of a retry has run for a request outside the API prefix
    (as a request is once rewritten), the entry under its key holds the
    count plus 1; a response then delivered for a GET request with that
    key, other than a 502 answered with the cluster's own message, removes
    the entry, so that the next failure on the key starts again from a
    count of 0. *)
Theorem retry_then_response_clears (KUBE_BASE : string) (env env' : Collaborators)
    (cb : Retry) (code : Z) (r' s' : ref) (w : World) :
  JS.startsWith (url (requests w (retryReq cb))) KUBE_BASE = false ->
  method (requests w r') = "GET" ->
  requestKey (requests w r') = retryCounterKey cb ->
  (forall msg, ~ customMessage env' code (requests w r') msg) ->
  retryCounters (snd (retryCallback KUBE_BASE env cb w)) !! retryCounterKey cb
    = Some (retryCount cb + 1)
  /\ retryCounters (snd (onProxyRes env' code r' s' (snd (retryCallback KUBE_BASE env cb w)))) =
     delete (retryCounterKey cb) (retryCounters w)
  /\ JS.or_zero (retryCounters
                   (snd (onProxyRes env' code r' s' (snd (retryCallback KUBE_BASE env cb w))))
                   !! retryCounterKey cb) = 0.
Proof.
  intros Hs Hm Hk Hc.
  destruct (retryCallback_effect KUBE_BASE env cb w) as (Hl & _).
  assert (Hreq : requests (snd (retryCallback KUBE_BASE env cb w)) = requests w).
  { unfold retryCallback. run.
    match goal with |- context [handleRequest _ _ _ _ ?w0] => set (w0' := w0) end.
    now rewrite (handleRequest_requests_non_api KUBE_BASE env (retryReq cb) (retryRes cb) w0'). }
  remember (snd (retryCallback KUBE_BASE env cb w)) as w1 eqn:Ew1. clear Ew1.
  assert (Hclear : retryCounters (snd (onProxyRes env' code r' s' w1)) =
                   delete (retryCounterKey cb) (retryCounters w)).
  { rewrite onProxyRes_plain by (rewrite Hreq; exact Hc).
    rewrite Hreq, Hm, Hk.
    change (negb ("GET" =? "GET")%string) with false. cbv iota. run.
    rewrite Hl, bool_decide_eq_true_2 by (rewrite lookup_insert_eq; eauto).
    cbn. apply delete_insert_eq. }
  split; [rewrite Hl; apply lookup_insert_eq |].
  split; [exact Hclear |]. now rewrite Hclear, lookup_delete_eq.
Qed.

Lemma retry_then_response_clears_witness :
  retryCounters (snd (onProxyRes Sample.env 200 1%nat 1%nat
                        (snd (retryCallback Sample.KUBE_BASE Sample.env
                                (mkRetry Sample.podsKey 3 0%nat 0%nat) Sample2.twoClients)))) = ∅.
Proof.
  destruct (retry_then_response_clears Sample.KUBE_BASE Sample.env Sample.env
              (mkRetry Sample.podsKey 3 0%nat 0%nat) 200 1%nat 1%nat Sample2.twoClients)
    as (_ & H & _).
  - reflexivity.
  - reflexivity.
  - reflexivity.
  - intros msg (Hcode & _). discriminate Hcode.
  - rewrite H. apply delete_singleton_eq.
Defined.

(** ** A url with the prefix twice *)

(** X14. Target resolution removes one leading prefix at a time: on a url
    that starts with the prefix twice, a second resolution on the same
    request asks the context handler again, now for the url with both
    prefixes removed. *)
Theorem getProxyTarget_twice_on_nested_prefix (KUBE_BASE : string) (env env' : Collaborators)
    (r : ref) (c c' : Cluster) (w : World) :
  let url1 := JS.skip (String.length KUBE_BASE) (url (requests w r)) in
  let url2 := JS.skip (String.length KUBE_BASE) url1 in
  JS.startsWith (url (requests w r)) KUBE_BASE = true ->
  JS.startsWith url1 KUBE_BASE = true ->
  url (requests (snd (getProxyTarget KUBE_BASE env r c w)) r) = url1
  /\ emitted (snd (getProxyTarget KUBE_BASE env r c w))
             (snd (getProxyTarget KUBE_BASE env' r c'
                     (snd (getProxyTarget KUBE_BASE env r c w)))) =
     [GetApiTarget c' (JS.includes url2 "watch=")]
  /\ url (requests (snd (getProxyTarget KUBE_BASE env' r c'
                           (snd (getProxyTarget KUBE_BASE env r c w)))) r) = url2.
Proof.
  intros url1 url2 H1 H2.
  destruct (getProxyTarget_api_after KUBE_BASE env r c w H1) as (_ & Hu). fold url1 in Hu.
  split; [exact Hu |].
  assert (H2' : JS.startsWith
                  (url (requests (snd (getProxyTarget KUBE_BASE env r c w)) r)) KUBE_BASE = true)
    by now rewrite Hu.
  destruct (getProxyTarget_api_after KUBE_BASE env' r c' _ H2') as (He & Hu').
  rewrite Hu in He, Hu'. split; [exact He | exact Hu'].
Qed.

Lemma getProxyTarget_twice_on_nested_prefix_witness :
  url (requests
         (snd (getProxyTarget Sample.KUBE_BASE Sample.env 0%nat 7%nat
                 (snd (getProxyTarget Sample.KUBE_BASE Sample.env 0%nat 7%nat
                         (Sample.serving false ∅ Sample2.nested))))) 0%nat) = "/version".
Proof.
  destruct (getProxyTarget_twice_on_nested_prefix Sample.KUBE_BASE Sample.env Sample.env
              0%nat 7%nat 7%nat (Sample.serving false ∅ Sample2.nested) eq_refl eq_refl)
    as (_ & _ & H).
  exact H.
Defined.

(** ** What the proxy writes and what it rewrites *)




(** X16. Dispatch keeps the identity of a request apart from what target
    resolution is there to change: every request keeps its method and all
    its headers other than authorization (so the host part of its key),
    requests other than the dispatched one are untouched, and the url of
    the dispatched one is either unchanged or has lost the API prefix it
    started with. The two hooks change no request at all. *)
Theorem requests_kept (KUBE_BASE : string) (env : Collaborators) (r s : ref) (w : World) :
  (forall r', method (requests (snd (handleRequest KUBE_BASE env r s w)) r') =
              method (requests w r'))
  /\ (forall r' h, h <> "authorization" ->
        headers (requests (snd (handleRequest KUBE_BASE env r s w)) r') !! h =
        headers (requests w r') !! h)
  /\ (forall r', r' <> r ->
        requests (snd (handleRequest KUBE_BASE env r s w)) r' = requests w r')
  /\ (url (requests (snd (handleRequest KUBE_BASE env r s w)) r) = url (requests w r)
      \/ (JS.startsWith (url (requests w r)) KUBE_BASE = true
          /\ url (requests w r) =
             KUBE_BASE +:+ url (requests (snd (handleRequest KUBE_BASE env r s w)) r)))
  /\ (forall code, requests (snd (onProxyRes env code r s w)) = requests w)
  /\ (forall tgt, requests (snd (onError r s tgt w)) = requests w).
Proof.
  assert (Hcases :
    requests (snd (handleRequest KUBE_BASE env r s w)) = requests w
    \/ (JS.startsWith (url (requests w r)) KUBE_BASE = true
        /\ requests (snd (handleRequest KUBE_BASE env r s w)) r =
           mkRequest (method (requests w r)) (delete "authorization" (headers (requests w r)))
                     (JS.skip (String.length KUBE_BASE) (url (requests w r)))
        /\ forall r', r' <> r ->
             requests (snd (handleRequest KUBE_BASE env r s w)) r' = requests w r')).
  { destruct (JS.startsWith (url (requests w r)) KUBE_BASE) eqn:Hs;
      [| left; now apply handleRequest_requests_non_api].
    destruct (getClusterForRequest env (requests w r)) as [c|] eqn:Hc;
      [| left; unfold handleRequest; run; now rewrite Hc].
    rewrite (handleRequest_known KUBE_BASE env r s w c Hc).
    destruct (ensureServer env c) as [[]|]; [| left; reflexivity].
    right. split; [reflexivity |].
    destruct (getProxyTarget_api_outcome KUBE_BASE env r c (snd (emit (EnsureServer c) w)) Hs)
      as (w1 & Hw1 & ->).
    destruct Hw1 as (Hreq & Hoth & _).
    change (requests (snd (emit (EnsureServer c) w))) with (requests w) in Hreq, Hoth.
    cbv zeta.
    destruct (getApiTarget env c _) as [[t|]|]; cbn; split; assumption. }
  split; [apply Quiet_handleRequest |].
  split; [| split; [| split; [| split]]].
  - intros r' h Hh. destruct Hcases as [-> | (_ & Hr & Ho)]; [reflexivity |].
    destruct (decide (r' = r)) as [-> | Hne]; [| now rewrite Ho].
    rewrite Hr. cbn. now apply lookup_delete_ne.
  - intros r' Hne. destruct Hcases as [-> | (_ & _ & Ho)]; [reflexivity | now apply Ho].
  - destruct Hcases as [-> | (Hs & Hr & _)]; [now left |].
    right. split; [exact Hs |]. rewrite Hr. cbn. now apply JSFacts.startsWith_split.
  - intros code. apply onProxyRes_frame.
  - intros tgt. apply onError_frame.
Qed.


Lemma requests_kept_witness :
  headers (requests (snd (handleRequest Sample.KUBE_BASE Sample.env 0%nat 0%nat Sample.arrival))
                    0%nat) !! "host" = Some "c1.localhost:9000".
Proof.
  destruct (requests_kept Sample.KUBE_BASE Sample.env 0%nat 0%nat Sample.arrival)
    as (_ & H & _).
  rewrite (H 0%nat "host") by discriminate. reflexivity.
Defined.
